(** * NLA staff papers scraper: a shallow embedding of [scrape.py]

    The script fetches one listing page, locates the list items of the
    search-results container, turns each item into a six-field record and
    writes the records as JSON.  This file embeds the extraction functions
    and the output-path logic of [scrape.py], together with the library
    operations they call (BeautifulSoup lookups, [str] methods,
    [datetime.strptime], [os.path]), and proves properties of them.

    Conventions of the model:
    - a Python [str] is a [string]; a character is a code point below 256,
      so the whitespace class is the one of [str.isspace] on that range and
      the class of decimal digits, [\d], is [0]..[9] (the classes have
      more characters beyond U+00FF; statements name the classes, not
      their members);
    - a call that may raise returns a [result]: [OK v] or [Raise e];
    - the network and the clock are inputs: the fetcher is a variable of a
      section, the current time an argument. *)

From Stdlib Require Import Ascii String ZArith Lia Bool.
From stdpp Require Import gmap strings list.

Local Open Scope Z_scope.

(** ** Exceptions and results *)

(** Why [datetime.strptime] raised [ValueError]. *)
Inductive strptime_failure :=
| NoMatch              (* time data ... does not match format ... *)
| UnconvertedData      (* unconverted data remains: ... *)
| OutOfRange.          (* year ... is out of range / day is out of range for month *)

(** The built-in exceptions the extraction path can raise.  None carries a
    field name or a node position: the payload below is all a handler
    could read from the exception object. *)
Inductive exn :=
| AttributeError (attr : string)  (* 'NoneType' object has no attribute attr *)
| IndexError                      (* list index out of range *)
| TypeError                       (* 'NoneType' object is not subscriptable *)
| KeyError (key : string)
| ValueError (why : strptime_failure)
| RequestException.               (* raised by the fetcher only *)

Inductive result (A : Type) :=
| OK (a : A)
| Raise (e : exn).
Arguments OK {A} a.
Arguments Raise {A} e.

Definition bind {A B} (r : result A) (k : A -> result B) : result B :=
  match r with
  | OK a => k a
  | Raise e => Raise e
  end.

Notation "'try' x <- r 'in' k" := (bind r (fun x => k))
  (at level 10, x name, r at level 100, k at level 200,
   format "'[v' 'try'  x  <-  r  'in' '/' k ']'").

Definition is_ok {A} (r : result A) : bool :=
  match r with OK _ => true | Raise _ => false end.

(** A [for] loop that appends one converted element per iteration: the
    first exception leaves the loop and the function. *)
Fixpoint for_each {A B} (f : A -> result B) (l : list A) : result (list B) :=
  match l with
  | [] => OK []
  | x :: l' => try y <- f x in try ys <- for_each f l' in OK (y :: ys)
  end.

(** ** Python [str] methods *)

Module str.

(** [str.isspace] on one code point below 256: U+0009..U+000D,
    U+001C..U+0020, U+0085 and U+00A0. *)
Definition isspace (c : ascii) : bool :=
  let n := N_of_ascii c in
  ((9 <=? n) && (n <=? 13) || (28 <=? n) && (n <=? 32)
   || (n =? 133) || (n =? 160))%N.

Fixpoint lstrip (s : string) : string :=
  match s with
  | "" => ""
  | String c s' => if isspace c then lstrip s' else s
  end.

Fixpoint rstrip (s : string) : string :=
  match s with
  | "" => ""
  | String c s' =>
      match rstrip s' with
      | "" => if isspace c then "" else String c ""
      | r => String c r
      end
  end.

(** [s.strip()]: whitespace removed at both ends. *)
Definition strip (s : string) : string := rstrip (lstrip s).

(** [s.split(sep)] for a one-character separator: every occurrence
    cuts, empty pieces are kept, the result is never empty. *)
Fixpoint split (sep : ascii) (s : string) : list string :=
  match s with
  | "" => [""]
  | String c s' =>
      if Ascii.eqb c sep then "" :: split sep s'
      else match split sep s' with
           | p :: ps => String c p :: ps
           | [] => [String c ""]
           end
  end.

(** [sep.join(l)] *)
Fixpoint join (sep : string) (l : list string) : string :=
  match l with
  | [] => ""
  | [x] => x
  | x :: l' => x +:+ sep +:+ join sep l'
  end.

Fixpoint startswith (s p : string) {struct p} : bool :=
  match p with
  | "" => true
  | String a p' =>
      match s with
      | String c s' => Ascii.eqb a c && startswith s' p'
      | "" => false
      end
  end.

Fixpoint endswith (s p : string) : bool :=
  String.eqb s p ||
  match s with
  | "" => false
  | String _ s' => endswith s' p
  end.

(** [p in s] *)
Fixpoint contains (s p : string) : bool :=
  startswith s p ||
  match s with
  | "" => false
  | String _ s' => contains s' p
  end.

(** ASCII letters lowered; the other code points are left alone. *)
Definition lower_char (c : ascii) : ascii :=
  let n := N_of_ascii c in
  if ((65 <=? n) && (n <=? 90))%N then ascii_of_N (n + 32) else c.

Fixpoint lower (s : string) : string :=
  match s with
  | "" => ""
  | String c s' => String (lower_char c) (lower s')
  end.

Fixpoint drop (n : nat) (s : string) : string :=
  match n, s with
  | O, _ => s
  | S n', String _ s' => drop n' s'
  | S _, "" => ""
  end.

Fixpoint take (n : nat) (s : string) : string :=
  match n, s with
  | S n', String c s' => String c (take n' s')
  | _, _ => ""
  end.

End str.

(** ** The parsed document *)

(** The classes of string that [.text] passes over when it is read on an
    element such as [div], [span] or [h3]: it gathers the strings of the
    classes [NavigableString] and [CData] only. *)
Inductive special :=
| Comment | Declaration | Doctype | ProcessingInstruction
| Script | Stylesheet | TemplateString
| RubyTextString | RubyParenthesisString.

(** A node of the tree BeautifulSoup builds.  [NavigableString] is a
    string [.text] gathers; [SpecialString] is a string of one of the
    classes above.  In an element, [class_] is the token list of the
    multi-valued [class] attribute (empty when the attribute is absent:
    none of the lookups below tells the two apart); [attrs] holds the
    single-valued attributes.  Tag names are as the builder stores them. *)
#[warning="-register-all"]
Inductive node :=
| NavigableString (s : string)
| SpecialString (cls : special) (s : string)
| Tag (name : string) (class_ : list string) (attrs : gmap string string)
      (contents : list node).

Module bs4.

Definition name (n : node) : option string :=
  match n with
  | NavigableString _ | SpecialString _ _ => None
  | Tag nm _ _ _ => Some nm
  end.

Definition classes (n : node) : list string :=
  match n with
  | NavigableString _ | SpecialString _ _ => []
  | Tag _ cl _ _ => cl
  end.

Definition get_attr (n : node) (k : string) : option string :=
  match n with
  | NavigableString _ | SpecialString _ _ => None
  | Tag _ _ at_ _ => at_ !! k
  end.

(** The value of the [class] attribute read as one string. *)
Definition class_string (n : node) : string := str.join " " (classes n).

(** [n.descendants]: every node below [n], strings of every class
    included, in document order. *)
Fixpoint descendants (n : node) : list node :=
  match n with
  | NavigableString _ | SpecialString _ _ => []
  | Tag _ _ _ cs =>
      (fix go (l : list node) : list node :=
         match l with
         | [] => []
         | c :: l' => c :: descendants c ++ go l'
         end) cs
  end.

(** [n.text]: the strings below [n] concatenated, those of the special
    classes left out. *)
Fixpoint text (n : node) : string :=
  match n with
  | NavigableString s => s
  | SpecialString _ _ => ""
  | Tag _ _ _ cs =>
      (fix go (l : list node) : string :=
         match l with
         | [] => ""
         | c :: l' => text c +:+ go l'
         end) cs
  end.

Definition is_tag (n : node) : bool :=
  match n with
  | NavigableString _ | SpecialString _ _ => false
  | Tag _ _ _ _ => true
  end.

Definition has_name (nm : string) (n : node) : bool :=
  match name n with
  | Some nm' => String.eqb nm' nm
  | None => false
  end.

(** How [find]/[find_all] compare [attrs={'class': v}] with an element:
    some token equals [v], or the whole attribute value does. *)
Definition class_matches (v : string) (n : node) : bool :=
  is_tag n &&
  (existsb (fun t => String.eqb t v) (classes n)
   || String.eqb (class_string n) v).

(** [n.find_all(...)] and [n.find(...)] for an element filter [p]. *)
Definition find_all (p : node -> bool) (n : node) : list node :=
  List.filter p (descendants n).

Definition find (p : node -> bool) (n : node) : option node :=
  head (find_all p n).

(** The CSS selector [tag[class*=marker]]: elements named [tag] whose
    [class] value contains [marker]. *)
Definition css_class_contains (tag marker : string) (n : node) : bool :=
  has_name tag n && str.contains (class_string n) marker.

Definition select (tag marker : string) (n : node) : list node :=
  List.filter (css_class_contains tag marker) (descendants n).

End bs4.

(** Python's [x[0]] on a list, [x.attr] on a possibly-[None] value. *)
Definition index0 {A} (l : list A) : result A :=
  match l with
  | x :: _ => OK x
  | [] => Raise IndexError
  end.

Definition attr_of {A} (attr : string) (o : option A) : result A :=
  match o with
  | Some x => OK x
  | None => Raise (AttributeError attr)
  end.

(** ** [datetime.strptime] with the format ['%d %B %Y'] *)

Module datetime.

Record date := mkdate { year : Z; month : Z; day : Z }.

(** *** The regular expression the format compiles to

    [_strptime] turns the format into
    [(?P<d>3[0-1]|[1-2]\d|0[1-9]|[1-9]| [1-9])\s+(?P<B>...)\s+(?P<Y>\d\d\d\d)]
    compiled with [IGNORECASE], where [B] lists the month names of the
    locale, longest first.  A matcher returns, in the order a
    backtracking engine tries them, every way to match a prefix of its
    input: the matched text and what is left. *)
Definition matcher := string -> list (string * string).

Definition one (p : ascii -> bool) : matcher := fun s =>
  match s with
  | String c r => if p c then [(String c "", r)] else []
  | "" => []
  end.

(** [p] followed by what [k] does with the text [p] matched. *)
Definition then_ {X} (p : matcher) (k : string -> string -> list X)
  : string -> list X := fun s =>
  flat_map (fun mr => k (fst mr) (snd mr)) (p s).

Definition cat (p q : matcher) : matcher :=
  then_ p (fun m1 => then_ q (fun m2 r => [(m1 +:+ m2, r)])).

Definition alt (p q : matcher) : matcher := fun s => p s ++ q s.

(** [c+] for a character class, greedy: the longest run first. *)
Fixpoint plus (p : ascii -> bool) (s : string) : list (string * string) :=
  match s with
  | String c r =>
      if p c
      then List.map (fun mr => (String c (fst mr), snd mr)) (plus p r)
             ++ [(String c "", r)]
      else []
  | "" => []
  end.

(** A literal word under [IGNORECASE]; the word is in lower case. *)
Definition iword (w : string) : matcher := fun s =>
  if str.startswith (str.lower s) w
  then [(str.take (String.length w) s, str.drop (String.length w) s)]
  else [].

Definition chr (a : ascii) (c : ascii) : bool := Ascii.eqb c a.

Definition between (lo hi : ascii) (c : ascii) : bool :=
  ((N_of_ascii lo <=? N_of_ascii c) && (N_of_ascii c <=? N_of_ascii hi))%N.

(** [\d], the decimal digits: below 256 these are [0]..[9]. *)
Definition digit : ascii -> bool := between "0" "9".

Definition re_d : matcher :=
  alt (cat (one (chr "3")) (one (between "0" "1")))
 (alt (cat (one (between "1" "2")) (one digit))
 (alt (cat (one (chr "0")) (one (between "1" "9")))
 (alt (one (between "1" "9"))
      (cat (one (chr " ")) (one (between "1" "9")))))).

(** [LocaleTime.f_month] of the English (C) locale; index 0 is unused. *)
Definition f_month : list string :=
  [""; "january"; "february"; "march"; "april"; "may"; "june"; "july";
   "august"; "september"; "october"; "november"; "december"].

(** The names as the regular expression lists them: sorted by length,
    longest first, the sort being stable. *)
Definition month_alternatives : list string :=
  ["september"; "february"; "november"; "december"; "january"; "october";
   "august"; "march"; "april"; "june"; "july"; "may"].

Definition re_B : matcher := fun s =>
  flat_map (fun w => iword w s) month_alternatives.

Definition re_Y : matcher := cat (one digit) (cat (one digit) (cat (one digit) (one digit))).

Definition re_s : matcher := plus str.isspace.

(** The whole expression; a match yields the groups [d], [B], [Y]. *)
Definition regex_dBY : string -> list ((string * string * string) * string) :=
  then_ re_d (fun d =>
  then_ re_s (fun _ =>
  then_ re_B (fun b =>
  then_ re_s (fun _ =>
  then_ re_Y (fun y rest => [((d, b, y), rest)]))))).

(** *** Conversion of the groups *)

(** The decimal value of a digit, as [int] reads it. *)
Definition digit_val (c : ascii) : Z := Z.of_N (N_of_ascii c) - 48.

Fixpoint int_digits (acc : Z) (s : string) : Z :=
  match s with
  | "" => acc
  | String c r => int_digits (10 * acc + digit_val c) r
  end.

(** [int(s)] on a group of the expression: digits, possibly after a
    blank. *)
Definition int (s : string) : Z := int_digits 0 (str.strip s).

(** [l.index(x)]; the expression only matches names of the list. *)
Fixpoint index (l : list string) (x : string) : Z :=
  match l with
  | [] => 0
  | y :: l' => if String.eqb y x then 0 else 1 + index l' x
  end.

Definition is_leap (y : Z) : bool :=
  (y mod 4 =? 0) && (negb (y mod 100 =? 0) || (y mod 400 =? 0)).

Definition days_in_month (y m : Z) : Z :=
  if m =? 2 then (if is_leap y then 29 else 28)
  else if (m =? 4) || (m =? 6) || (m =? 9) || (m =? 11) then 30
  else 31.

(** The check of the [date] constructor: [MINYEAR = 1], [MAXYEAR = 9999]. *)
Definition valid (y m d : Z) : bool :=
  (1 <=? y) && (y <=? 9999) && (1 <=? m) && (m <=? 12)
  && (1 <=? d) && (d <=? days_in_month y m).

(** [datetime.strptime(data, '%d %B %Y').date()] *)
Definition strptime_dBY (data : string) : result date :=
  match regex_dBY data with
  | [] => Raise (ValueError NoMatch)
  | ((d, b, y), rest) :: _ =>
      match rest with
      | "" =>
          let y' := int y in
          let m' := index f_month (str.lower b) in
          let d' := int d in
          if valid y' m' d' then OK (mkdate y' m' d')
          else Raise (ValueError OutOfRange)
      | String _ _ => Raise (ValueError UnconvertedData)
      end
  end.

Definition digit_char (n : Z) : ascii := ascii_of_N (Z.to_N (48 + n)).

(** [%02d] and [%04d] on the ranges a [date] allows. *)
Definition pad2 (n : Z) : string :=
  String (digit_char (n / 10)) (String (digit_char (n mod 10)) "").

Definition pad4 (n : Z) : string :=
  String (digit_char (n / 1000)) (String (digit_char (n / 100 mod 10))
    (String (digit_char (n / 10 mod 10)) (String (digit_char (n mod 10)) ""))).

(** [d.isoformat()] *)
Definition isoformat (d : date) : string :=
  pad4 (year d) +:+ "-" +:+ pad2 (month d) +:+ "-" +:+ pad2 (day d).

End datetime.

(** ** [os.path] (POSIX) and the clock *)

Module os_path.

(** [os.path.join(a, b)] *)
Definition join (a b : string) : string :=
  if str.startswith b "/" then b
  else if String.eqb a "" || str.endswith a "/" then a +:+ b
  else a +:+ "/" +:+ b.

(** The loop of [normpath]; [new_comps] is kept last component first. *)
Fixpoint norm_comps (initial_slashes : nat) (comps new_comps : list string)
  : list string :=
  match comps with
  | [] => new_comps
  | comp :: comps' =>
      if String.eqb comp "" || String.eqb comp "." then
        norm_comps initial_slashes comps' new_comps
      else if negb (String.eqb comp "..")
              || (Nat.eqb initial_slashes 0 && bool_decide (new_comps = []))
              || match new_comps with
                 | top :: _ => String.eqb top ".."
                 | [] => false
                 end
      then norm_comps initial_slashes comps' (comp :: new_comps)
      else norm_comps initial_slashes comps' (tail new_comps)
  end.

Fixpoint repeat_sep (n : nat) : string :=
  match n with O => "" | S n' => String "/" (repeat_sep n') end.

(** [os.path.normpath(path)] *)
Definition normpath (path : string) : string :=
  if String.eqb path "" then "."
  else
    let initial_slashes : nat :=
      if str.startswith path "/" then
        if str.startswith path "//" && negb (str.startswith path "///")
        then 2%nat else 1%nat
      else 0%nat in
    let comps := rev (norm_comps initial_slashes (str.split "/" path) []) in
    let path' := repeat_sep initial_slashes +:+ str.join "/" comps in
    if String.eqb path' "" then "." else path'.

(** [os.path.abspath(path)], the working directory being [cwd]. *)
Definition abspath (cwd path : string) : string :=
  normpath (if str.startswith path "/" then path else join cwd path).

End os_path.

(** What [datetime.now()] returns. *)
Record clock := mkclock {
  c_year : Z; c_month : Z; c_day : Z; c_hour : Z; c_minute : Z; c_second : Z
}.

(** [now.strftime('%Y-%m-%d-%H-%M-%S')], for a four-digit year. *)
Definition strftime_stamp (now : clock) : string :=
  datetime.pad4 (c_year now) +:+ "-" +:+ datetime.pad2 (c_month now) +:+ "-"
  +:+ datetime.pad2 (c_day now) +:+ "-" +:+ datetime.pad2 (c_hour now) +:+ "-"
  +:+ datetime.pad2 (c_minute now) +:+ "-" +:+ datetime.pad2 (c_second now).

(** ** The functions of [scrape.py] *)

(** The dict [convert_raw_paper_to_dict] builds: six fixed keys. *)
Record paper := mkpaper {
  title : string;
  url : string;
  authors : list string;
  date : string;
  abstract : string;
  topics : list string
}.

(** [find('span', attrs={'class': 'field-content'})] *)
Definition field_content_span (n : node) : bool :=
  bs4.has_name "span" n && bs4.class_matches "field-content" n.

Definition extract_raw_search_results (soup : node) : result (list node) :=
  try container <-
    attr_of "find_all" (bs4.find (bs4.class_matches "search-results") soup) in
  OK (bs4.find_all (bs4.has_name "li") container).

Definition get_author_list (item : node) : result (list string) :=
  try author_div <- index0 (bs4.select "div" "paper-author" item) in
  try span <- attr_of "text" (bs4.find field_content_span author_div) in
  let raw_authors := bs4.text span in
  OK (List.map str.strip (str.split "," raw_authors)).

Definition get_topics_list (item : node) : result (list string) :=
  try topic_div <- index0 (bs4.select "div" "paper-topics" item) in
  try span <- attr_of "text" (bs4.find field_content_span topic_div) in
  let raw_topics := bs4.text span in
  OK (List.map str.strip (str.split "," raw_topics)).

Definition get_abstract (item : node) : result string :=
  try abstract_div <- index0 (bs4.select "div" "paper-abstract" item) in
  OK (str.strip (bs4.text abstract_div)).

Definition get_date (item : node) : result string :=
  try date_div <- index0 (bs4.select "div" "paper-pubdate" item) in
  try span <- attr_of "text" (bs4.find field_content_span date_div) in
  let raw := str.strip (bs4.text span) in
  try d <- datetime.strptime_dBY raw in
  let iso := datetime.isoformat d in
  OK iso.

(** [x['href']] where [x] may be [None] or lack the attribute. *)
Definition getitem (x : option node) (key : string) : result string :=
  match x with
  | None => Raise TypeError
  | Some a =>
      match bs4.get_attr a key with
      | Some v => OK v
      | None => Raise (KeyError key)
      end
  end.

(** The dict display evaluates its values in the order written. *)
Definition convert_raw_paper_to_dict (item : node) : result paper :=
  try h3 <- attr_of "text" (bs4.find (bs4.has_name "h3") item) in
  let title_v := bs4.text h3 in
  try h3' <- attr_of "find" (bs4.find (bs4.has_name "h3") item) in
  try href <- getitem (bs4.find (bs4.has_name "a") h3') "href" in
  let url_v := "https://www.nla.gov.au" +:+ href in
  try authors_v <- get_author_list item in
  try date_v <- get_date item in
  try abstract_v <- get_abstract item in
  try topics_v <- get_topics_list item in
  OK (mkpaper title_v url_v authors_v date_v abstract_v topics_v).

Section Scrape.

(** [collect_soup]: the HTTP request and the HTML parser. *)
Variable collect_soup : string -> result node.

Definition scrape (url : string) : result (list paper) :=
  try page <- collect_soup url in
  try search_results <- extract_raw_search_results page in
  for_each convert_raw_paper_to_dict search_results.

End Scrape.

(** The namespace [parse_args] returns. *)
Record namespace := mkargs {
  arg_url : string;
  arg_outpath : string;
  arg_silent : bool
}.

(** [parse_args], from the values given on the command line ([None] for
    an option left out) and the working directory. *)
Definition parse_args (cwd : string) (url_opt outpath_opt : option string)
    (silent_flag : bool) : namespace :=
  mkargs (default "https://www.nla.gov.au/our-publications/staff-papers" url_opt)
         (os_path.abspath cwd (default "./" outpath_opt))
         silent_flag.

Definition add_filename_default (now : clock) (outpath : string) : string :=
  let default_file_name := strftime_stamp now +:+ ".json" in
  if negb (str.endswith outpath ".json")
  then os_path.join outpath default_file_name
  else outpath.

(** The path [main] opens for writing. *)
Definition main_outpath (now : clock) (args : namespace) : string :=
  if negb (str.endswith (arg_outpath args) ".json")
  then add_filename_default now (arg_outpath args)
  else arg_outpath args.

(** [main] up to the write: the path opened and the records dumped. *)
Definition main (collect_soup : string -> result node) (now : clock)
    (args : namespace) : result (string * list paper) :=
  try papers <- scrape collect_soup (arg_url args) in
  OK (main_outpath now args, papers).

(** ** Fixtures *)

Definition span_field (txt : string) : node :=
  Tag "span" ["field-content"] ∅ [NavigableString txt].

Definition field_div (cls : list string) (txt : string) : node :=
  Tag "div" cls ∅ [span_field txt].

Definition heading (ttl href : string) : node :=
  Tag "h3" [] ∅ [Tag "a" [] {[ "href" := href ]} [NavigableString ttl]].

(** A listing whose field elements carry the markers among longer tokens. *)
Definition listing (ttl href auth dt abs tops : string) : node :=
  Tag "li" []  ∅
    [heading ttl href;
     field_div ["views-field"; "views-field-field-paper-author"] auth;
     field_div ["views-field"; "views-field-field-paper-pubdate"] dt;
     Tag "div" ["views-field"; "views-field-field-paper-abstract"] ∅
       [NavigableString abs];
     field_div ["views-field"; "views-field-field-paper-topics"] tops].

Definition page_of (items : list node) : node :=
  Tag "[document]" [] ∅
    [Tag "html" [] ∅ [Tag "body" [] ∅
      [Tag "div" ["view-content"; "search-results"] ∅ [Tag "ul" [] ∅ items]]]].

Definition two_listings : list node :=
  [listing "B paper" "/b" "Zed" "2 March 2001" "b" "T";
   listing "A paper" "/a" "Abe" "1 March 2001" "a" "T"].

Definition good_then_bad : list node :=
  [listing "A paper" "/a" "Abe" "1 March 2001" "a" "T";
   listing "B paper" "/b" "Zed" "2001-03-02" "b" "T";
   listing "C paper" "/c" "Cy" "3 March 2001" "c" "T"].

(** ** Definitions that follow the specification *)

(** The common extractor the specification proposes for the two
    comma-list fields, with the marker as its parameter: select the first
    [div] whose class contains the marker, read its field-content span,
    split on commas, trim. *)
Definition extract_comma_list (marker : string) (item : node)
  : result (list string) :=
  match bs4.select "div" marker item with
  | [] => Raise IndexError
  | field_div :: _ =>
      match bs4.find field_content_span field_div with
      | None => Raise (AttributeError "text")
      | Some span =>
          OK (List.map str.strip (str.split "," (bs4.text span)))
      end
  end.

Definition absolute_href_listing : node :=
  listing "Elsewhere" "https://example.org/x.pdf" "Abe" "1 March 2001" "a" "T".

(** What the specification says of the comma-list fields: the text is cut
    at its commas into pieces that hold no comma (empty pieces kept), and
    each piece loses the whitespace around it. *)
Fixpoint has_char (a : ascii) (s : string) : bool :=
  match s with
  | "" => false
  | String c r => Ascii.eqb c a || has_char a r
  end.

Fixpoint all_space (s : string) : bool :=
  match s with
  | "" => true
  | String c r => str.isspace c && all_space r
  end.

Definition first_char (s : string) : option ascii :=
  match s with
  | "" => None
  | String c _ => Some c
  end.

Fixpoint last_char (s : string) : option ascii :=
  match s with
  | "" => None
  | String c "" => Some c
  | String _ r => last_char r
  end.

Definition not_space_at (o : option ascii) : Prop :=
  forall c, o = Some c -> str.isspace c = false.

(** [t] is [p] without the whitespace at its two ends. *)
Definition trimmed (p t : string) : Prop :=
  exists l r, p = l +:+ t +:+ r
    /\ all_space l = true /\ all_space r = true
    /\ not_space_at (first_char t) /\ not_space_at (last_char t).

(** [pieces] are the stretches of [txt] between its commas. *)
Definition comma_pieces (txt : string) (pieces : list string) : Prop :=
  pieces <> []
  /\ str.join "," pieces = txt
  /\ Forall (fun p => has_char "," p = false) pieces.

Definition split_then_trim (txt : string) (l : list string) : Prop :=
  exists pieces, comma_pieces txt pieces /\ Forall2 trimmed pieces l.

Definition comma_listing : node :=
  listing "t" "/h" "A,, B" "1 March 2001" "a" " X ,Y,  ".

(** The output-path rule as the specification words it, [is_dir] telling
    which paths name a directory: a directory gets the timestamped file
    name joined to it, any other path is the target as it stands. *)
Definition target_by_kind (is_dir : string -> bool) (now : clock)
    (outpath : string) : string :=
  if is_dir outpath
  then os_path.join outpath (strftime_stamp now +:+ ".json")
  else outpath.

Definition noon : clock := mkclock 2024 3 5 12 0 0.

(** The four fields that have an extractor, with the marker of each. *)
Inductive field := Authors | Topics | Abstract | Pubdate.

Definition marker (f : field) : string :=
  match f with
  | Authors => "paper-author"
  | Topics => "paper-topics"
  | Abstract => "paper-abstract"
  | Pubdate => "paper-pubdate"
  end.

(** The exception an extractor leaves with, if any. *)
Definition raised {A} (r : result A) : option exn :=
  match r with
  | OK _ => None
  | Raise e => Some e
  end.

Definition raised_by (f : field) (item : node) : option exn :=
  match f with
  | Authors => raised (get_author_list item)
  | Topics => raised (get_topics_list item)
  | Abstract => raised (get_abstract item)
  | Pubdate => raised (get_date item)
  end.

(** The error contract as the specification words it: from the error of
    an extractor that found no marker element, one can read which field
    failed and at which position of the candidate list the node stands. *)
Definition errors_name_field_and_position : Prop :=
  exists identify : exn -> field * nat,
    forall (candidates : list node) (i : nat) (item : node) (f : field),
      candidates !! i = Some item ->
      bs4.select "div" (marker f) item = [] ->
      exists e, raised_by f item = Some e /\ identify e = (f, i).

(** Class matching as the specification words it, for the container
    lookup: an element whose class value contains the marker is found. *)
Definition container_found_by_substring : Prop :=
  forall (soup e : node) (mark : string),
    In e (bs4.descendants soup) ->
    bs4.is_tag e = true ->
    str.contains (bs4.class_string e) mark = true ->
    exists e', bs4.find (bs4.class_matches mark) soup = Some e'.

Definition bare_item : node := Tag "li" [] ∅ [].

Definition spanless_item : node :=
  Tag "li" [] ∅
    [Tag "div" ["paper-author"] ∅ [NavigableString "Abe"];
     Tag "div" ["paper-topics"] ∅ [NavigableString "T"];
     Tag "div" ["paper-abstract"] ∅ [NavigableString " a "];
     Tag "div" ["paper-pubdate"] ∅ [NavigableString "1 March 2001"]].

(** A field [div] with an element of class [field-content] that is no
    [span], before the span. *)
Definition bold_before_span : node :=
  Tag "div" ["paper-author"] ∅
    [Tag "b" ["field-content"] ∅ [NavigableString "By"]; span_field "Abe"].

Definition longer_token_page : node :=
  Tag "[document]" [] ∅
    [Tag "div" ["search-results-list"] ∅ [Tag "ul" [] ∅ [bare_item]]].

(** The texts [strptime] takes for ['%d %B %Y'], part by part, with the
    digits [0]..[9] written out by [pad2] and [pad4]: a day of one or two
    digits, a month name in any letter case, a year of four digits, and
    runs of whitespace between them.  The lemmas on the expression
    compute with this form; [day_chars] and [year_chars] below tell the
    same texts by the character classes. *)
Definition day_text (t : string) (d : Z) : Prop :=
  1 <= d <= 31
  /\ (t = datetime.pad2 d \/ (d <= 9 /\ t = String (datetime.digit_char d) "")).

Definition month_text (t : string) (m : Z) : Prop :=
  1 <= m <= 12 /\ datetime.f_month !! Z.to_nat m = Some (str.lower t).

Definition year_text (t : string) (y : Z) : Prop :=
  0 <= y <= 9999 /\ t = datetime.pad4 y.

Definition blanks (w : string) : Prop := w <> "" /\ all_space w = true.

Definition date_text (raw : string) (y m d : Z) : Prop :=
  exists td w1 tm w2 ty,
    raw = td +:+ w1 +:+ tm +:+ w2 +:+ ty
    /\ day_text td d /\ blanks w1 /\ month_text tm m /\ blanks w2
    /\ year_text ty y.








Definition dated (txt : string) : node := listing "t" "/h" "Abe" txt "a" "T".

(** ** More fixtures *)

(** The strings of the classes [.text] gathers, in the order of the list. *)
Fixpoint plain_strings (l : list node) : list string :=
  match l with
  | [] => []
  | NavigableString s :: l' => s :: plain_strings l'
  | _ :: l' => plain_strings l'
  end.

Fixpoint concat_strings (l : list string) : string :=
  match l with
  | [] => ""
  | s :: l' => s +:+ concat_strings l'
  end.

Definition nested_abstract_item : node :=
  Tag "li" [] ∅
    [Tag "div" ["paper-abstract"] ∅
       [NavigableString "  On "; SpecialString Comment " draft ";
        Tag "em" [] ∅ [NavigableString "maps"];
        Tag "script" [] ∅ [SpecialString Script "track()"];
        NavigableString ". "]].

Definition headless_item : node :=
  Tag "li" [] ∅ [field_div ["paper-author"] "Abe"].

Definition linkless_item : node :=
  Tag "li" [] ∅ [Tag "h3" [] ∅ [NavigableString "No link"]].

Definition hrefless_item : node :=
  Tag "li" [] ∅ [Tag "h3" [] ∅ [Tag "a" [] ∅ [NavigableString "No href"]]].

(** Heading and authors are fine; the date and the topics are not. *)
Definition bad_date_no_topics : node :=
  Tag "li" [] ∅
    [heading "T" "/t";
     field_div ["paper-author"] "Abe";
     field_div ["paper-pubdate"] "March 2001";
     Tag "div" ["paper-abstract"] ∅ [NavigableString "a"]].

(** A list item that holds a list of its own. *)
Definition inner_li : node := Tag "li" [] ∅ [NavigableString "inner"].

Definition outer_li : node :=
  Tag "li" [] ∅ [NavigableString "outer"; Tag "ul" [] ∅ [inner_li]].

Definition nested_list_page : node :=
  Tag "[document]" [] ∅
    [Tag "div" ["search-results"] ∅ [Tag "ul" [] ∅ [outer_li]]].

(** * Properties *)

Example strptime_ex1 :
  datetime.strptime_dBY "12 March 2021" = OK (datetime.mkdate 2021 3 12).
Proof. reflexivity. Qed.

Example end_to_end :
  scrape (fun _ => OK (page_of
    [listing "My Paper" "/pub/123" "A. One, B. Two" "5 May 2021"
             "  An abstract.  " "Economics"])) "u"
  = OK [mkpaper "My Paper" "https://www.nla.gov.au/pub/123"
          ["A. One"; "B. Two"] "2021-05-05" "An abstract." ["Economics"]].
Proof. vm_compute. reflexivity. Qed.

(** ** The loop of [scrape] *)

Section ForEach.
Context {A B : Type} (f : A -> result B).

Lemma for_each_OK (l : list A) (ys : list B) :
  for_each f l = OK ys -> Forall2 (fun x y => f x = OK y) l ys.
Proof.
  revert ys; induction l as [|x l IH]; intros ys; simpl.
  - intros [= <-]. constructor.
  - destruct (f x) as [y|e] eqn:Hx; simpl; [|discriminate].
    destruct (for_each f l) as [ys'|e] eqn:Hl; simpl; [|discriminate].
    intros [= <-]. constructor; auto.
Qed.

Lemma for_each_Forall2 (l : list A) (ys : list B) :
  Forall2 (fun x y => f x = OK y) l ys -> for_each f l = OK ys.
Proof.
  induction 1 as [|x y l ys Hx _ IH]; simpl; [reflexivity|].
  rewrite Hx; simpl. rewrite IH. reflexivity.
Qed.

(** One failing element is enough for the loop to raise. *)
Lemma for_each_raises (l : list A) (i : nat) (x : A) (e : exn) :
  l !! i = Some x -> f x = Raise e -> exists e', for_each f l = Raise e'.
Proof.
  revert i; induction l as [|x0 l IH]; intros [|i]; simpl; try discriminate.
  - intros [= ->] ->. eauto.
  - intros Hi Hx. destruct (f x0); simpl; [|eauto].
    destruct (IH i Hi Hx) as [e' ->]. simpl. eauto.
Qed.

(** The exception is the one of the first failing element. *)
Lemma for_each_first_raise (l : list A) (i : nat) (x : A) (e : exn) :
  l !! i = Some x -> f x = Raise e ->
  (forall j x', (j < i)%nat -> l !! j = Some x' -> is_ok (f x') = true) ->
  for_each f l = Raise e.
Proof.
  revert i; induction l as [|x0 l IH]; intros [|i]; simpl; try discriminate.
  - intros [= ->] -> _. reflexivity.
  - intros Hi Hx Hbefore.
    pose proof (Hbefore 0%nat x0 ltac:(lia) eq_refl) as H0.
    destruct (f x0); simpl in *; [|discriminate].
    rewrite (IH i Hi Hx); [reflexivity|].
    intros j x' Hj Hl. apply (Hbefore (S j) x'); [lia|exact Hl].
Qed.

End ForEach.

Lemma extract_raw_search_results_OK (soup : node) (nodes : list node) :
  extract_raw_search_results soup = OK nodes <->
  exists container,
    bs4.find (bs4.class_matches "search-results") soup = Some container
    /\ nodes = bs4.find_all (bs4.has_name "li") container.
Proof.
  unfold extract_raw_search_results.
  destruct (bs4.find _ soup) as [c|]; simpl; split.
  - intros [= <-]. eauto.
  - intros (c' & [= <-] & ->). reflexivity.
  - discriminate.
  - intros (c' & [=] & _).
Qed.

(** ** C3, C4, C5: the pipeline *)

(** C3: a fetched page yields the empty sequence exactly when its
    search-results container is found and holds no [li] element; when the
    page has no such container, [scrape] raises (the [AttributeError] of
    calling [find_all] on [None]) and returns no sequence at all. *)
Theorem scrape_empty_iff_container_empty
    (collect_soup : string -> result node) (u : string) (page : node) :
  collect_soup u = OK page ->
  (scrape collect_soup u = OK [] <->
     exists container,
       bs4.find (bs4.class_matches "search-results") page = Some container
       /\ bs4.find_all (bs4.has_name "li") container = [])
  /\ (bs4.find (bs4.class_matches "search-results") page = None ->
      scrape collect_soup u = Raise (AttributeError "find_all")
      /\ forall ps, scrape collect_soup u <> OK ps).
Proof.
  intros Hpage. unfold scrape. rewrite Hpage. simpl. split; [split|].
  - destruct (extract_raw_search_results page) as [nodes|e] eqn:Hx; simpl;
      [|discriminate].
    intros Hloop. apply for_each_OK in Hloop. inversion Hloop; subst.
    apply extract_raw_search_results_OK in Hx as (c & Hc & Hn). eauto.
  - intros (c & Hc & Hn).
    assert (extract_raw_search_results page = OK []) as ->.
    { apply extract_raw_search_results_OK. exists c. split; auto. }
    reflexivity.
  - intros Hnone. unfold extract_raw_search_results. rewrite Hnone. simpl.
    split; [reflexivity|]. intros ps. discriminate.
Qed.

Lemma scrape_empty_iff_container_empty_witness :
  scrape (fun _ => OK (page_of [])) "u" = OK []
  /\ scrape (fun _ => OK (Tag "[document]" [] ∅ [])) "u"
     = Raise (AttributeError "find_all").
Proof.
  split.
  - apply (scrape_empty_iff_container_empty (fun _ => OK (page_of [])) "u"
             (page_of []) eq_refl).
    eexists. split; reflexivity.
  - apply (scrape_empty_iff_container_empty
             (fun _ => OK (Tag "[document]" [] ∅ [])) "u"
             (Tag "[document]" [] ∅ []) eq_refl).
    reflexivity.
Defined.

(** C4: when [scrape] returns, its result has one record per [li] found in
    the container, at the same position: the i-th record is the conversion
    of the i-th [li] in document order, and the lengths agree. *)
Theorem scrape_one_record_per_node
    (collect_soup : string -> result node) (u : string) (page : node)
    (ps : list paper) :
  collect_soup u = OK page ->
  scrape collect_soup u = OK ps ->
  exists container nodes,
    bs4.find (bs4.class_matches "search-results") page = Some container
    /\ nodes = List.filter (bs4.has_name "li") (bs4.descendants container)
    /\ length ps = length nodes
    /\ (forall (i : nat) (n : node), nodes !! i = Some n ->
          exists p, ps !! i = Some p /\ convert_raw_paper_to_dict n = OK p)
    /\ (forall (i : nat) (p : paper), ps !! i = Some p ->
          exists n, nodes !! i = Some n /\ convert_raw_paper_to_dict n = OK p).
Proof.
  intros Hpage. unfold scrape. rewrite Hpage. simpl.
  destruct (extract_raw_search_results page) as [nodes|e] eqn:Hx; simpl;
    [|discriminate].
  intros Hloop. apply for_each_OK in Hloop.
  apply extract_raw_search_results_OK in Hx as (c & Hc & Hn).
  exists c, nodes. repeat split; auto.
  - symmetry. eapply Forall2_length; eauto.
  - intros i n Hi.
    destruct (Forall2_lookup_l _ _ _ _ _ Hloop Hi) as (p & Hp & Hconv). eauto.
  - intros i p Hi.
    destruct (Forall2_lookup_r _ _ _ _ _ Hloop Hi) as (n & Hn' & Hconv). eauto.
Qed.

Lemma scrape_one_record_per_node_witness :
  exists container nodes,
    bs4.find (bs4.class_matches "search-results") (page_of two_listings)
      = Some container
    /\ nodes = List.filter (bs4.has_name "li") (bs4.descendants container)
    /\ length [mkpaper "B paper" "https://www.nla.gov.au/b" ["Zed"]
                 "2001-03-02" "b" ["T"];
               mkpaper "A paper" "https://www.nla.gov.au/a" ["Abe"]
                 "2001-03-01" "a" ["T"]] = length nodes
    /\ (forall (i : nat) (n : node), nodes !! i = Some n ->
          exists p,
            [mkpaper "B paper" "https://www.nla.gov.au/b" ["Zed"]
               "2001-03-02" "b" ["T"];
             mkpaper "A paper" "https://www.nla.gov.au/a" ["Abe"]
               "2001-03-01" "a" ["T"]] !! i = Some p
            /\ convert_raw_paper_to_dict n = OK p)
    /\ (forall (i : nat) (p : paper),
          [mkpaper "B paper" "https://www.nla.gov.au/b" ["Zed"]
             "2001-03-02" "b" ["T"];
           mkpaper "A paper" "https://www.nla.gov.au/a" ["Abe"]
             "2001-03-01" "a" ["T"]] !! i = Some p ->
          exists n, nodes !! i = Some n /\ convert_raw_paper_to_dict n = OK p).
Proof.
  apply (scrape_one_record_per_node (fun _ => OK (page_of two_listings)) "u"
           (page_of two_listings)).
  - reflexivity.
  - vm_compute. reflexivity.
Defined.

(** C5: when the conversion of some located node raises, [scrape] raises
    too and returns no records; the exception is the one of the first
    node, in document order, whose conversion raises. *)
Theorem scrape_aborts_on_bad_node
    (collect_soup : string -> result node) (u : string) (page : node)
    (nodes : list node) (i : nat) (n : node) (e : exn) :
  collect_soup u = OK page ->
  extract_raw_search_results page = OK nodes ->
  nodes !! i = Some n ->
  convert_raw_paper_to_dict n = Raise e ->
  (exists e', scrape collect_soup u = Raise e')
  /\ (forall ps, scrape collect_soup u <> OK ps)
  /\ ((forall j n', (j < i)%nat -> nodes !! j = Some n' ->
         is_ok (convert_raw_paper_to_dict n') = true) ->
      scrape collect_soup u = Raise e).
Proof.
  intros Hpage Hx Hi Hn. unfold scrape. rewrite Hpage. simpl.
  rewrite Hx. simpl.
  destruct (for_each_raises convert_raw_paper_to_dict nodes i n e Hi Hn)
    as [e' He'].
  split; [eauto|]. split.
  - intros ps. rewrite He'. discriminate.
  - intros Hbefore. eapply for_each_first_raise; eauto.
Qed.

Lemma scrape_aborts_on_bad_node_witness :
  (exists e', scrape (fun _ => OK (page_of good_then_bad)) "u" = Raise e')
  /\ scrape (fun _ => OK (page_of good_then_bad)) "u"
     = Raise (ValueError NoMatch).
Proof.
  destruct (scrape_aborts_on_bad_node (fun _ => OK (page_of good_then_bad))
              "u" (page_of good_then_bad) good_then_bad 1%nat
              (listing "B paper" "/b" "Zed" "2001-03-02" "b" "T")
              (ValueError NoMatch) eq_refl eq_refl eq_refl eq_refl)
    as (Hraises & _ & Hfirst).
  split; [exact Hraises|].
  apply Hfirst. intros j n' Hj Hn.
  destruct j as [|j]; [|lia].
  injection Hn as <-. reflexivity.
Defined.

(** ** C9, C10: record assembly *)

Lemma get_author_list_unfold (item : node) :
  get_author_list item = extract_comma_list "paper-author" item.
Proof.
  unfold get_author_list, extract_comma_list.
  destruct (bs4.select "div" "paper-author" item) as [|d ds]; simpl;
    [reflexivity|].
  destruct (bs4.find field_content_span d); reflexivity.
Qed.

Lemma get_topics_list_unfold (item : node) :
  get_topics_list item = extract_comma_list "paper-topics" item.
Proof.
  unfold get_topics_list, extract_comma_list.
  destruct (bs4.select "div" "paper-topics" item) as [|d ds]; simpl;
    [reflexivity|].
  destruct (bs4.find field_content_span d); reflexivity.
Qed.

(** C9: [get_author_list] and [get_topics_list] are one extractor that
    takes the class marker as a parameter, at ["paper-author"] and at
    ["paper-topics"]. *)
Theorem author_topics_share_extractor (item : node) :
  get_author_list item = extract_comma_list "paper-author" item
  /\ get_topics_list item = extract_comma_list "paper-topics" item.
Proof.
  split; [apply get_author_list_unfold|apply get_topics_list_unfold].
Qed.

Lemma bind_OK {A B} (r : result A) (k : A -> result B) (b : B) :
  bind r k = OK b -> exists a, r = OK a /\ k a = OK b.
Proof. destruct r; simpl; [eauto|discriminate]. Qed.

Lemma attr_of_OK {A} (attr : string) (o : option A) (a : A) :
  attr_of attr o = OK a -> o = Some a.
Proof. destruct o; simpl; congruence. Qed.

(** C10: in every record built, [url] is the site origin followed by the
    [href] value of the first link of the first [h3], as it stands: the
    value is not inspected before the origin is put in front of it. *)
Theorem url_is_origin_then_href (item : node) (p : paper) :
  convert_raw_paper_to_dict item = OK p ->
  exists h3 a href,
    bs4.find (bs4.has_name "h3") item = Some h3
    /\ bs4.find (bs4.has_name "a") h3 = Some a
    /\ bs4.get_attr a "href" = Some href
    /\ url p = "https://www.nla.gov.au" +:+ href.
Proof.
  unfold convert_raw_paper_to_dict. intros H.
  apply bind_OK in H as (h3 & Hh3 & H). apply attr_of_OK in Hh3.
  apply bind_OK in H as (h3' & Hh3' & H). apply attr_of_OK in Hh3'.
  assert (h3' = h3) as -> by congruence.
  apply bind_OK in H as (href & Hhref & H).
  apply bind_OK in H as (au & _ & H). apply bind_OK in H as (dt & _ & H).
  apply bind_OK in H as (ab & _ & H). apply bind_OK in H as (tp & _ & H).
  injection H as <-. simpl.
  unfold getitem in Hhref.
  destruct (bs4.find (bs4.has_name "a") h3) as [a|] eqn:Ha; [|discriminate].
  destruct (bs4.get_attr a "href") as [v|] eqn:Hv; [|discriminate].
  injection Hhref as ->. exists h3, a, href. repeat split; auto.
Qed.

(** An [href] that is already absolute still gets the origin in front. *)
Lemma url_is_origin_then_href_witness :
  convert_raw_paper_to_dict absolute_href_listing
    = OK (mkpaper "Elsewhere" "https://www.nla.gov.auhttps://example.org/x.pdf"
            ["Abe"] "2001-03-01" "a" ["T"])
  /\ exists h3 a href,
    bs4.find (bs4.has_name "h3") absolute_href_listing = Some h3
    /\ bs4.find (bs4.has_name "a") h3 = Some a
    /\ bs4.get_attr a "href" = Some href
    /\ "https://www.nla.gov.auhttps://example.org/x.pdf"
       = "https://www.nla.gov.au" +:+ href.
Proof.
  assert (convert_raw_paper_to_dict absolute_href_listing
    = OK (mkpaper "Elsewhere" "https://www.nla.gov.auhttps://example.org/x.pdf"
            ["Abe"] "2001-03-01" "a" ["T"])) as H by (vm_compute; reflexivity).
  split; [exact H|].
  exact (url_is_origin_then_href absolute_href_listing _ H).
Defined.

(** ** Strings *)

#[local] Arguments String.append : simpl nomatch.

Lemma append_nil_r (s : string) : s +:+ "" = s.
Proof. induction s; simpl; congruence. Qed.

Lemma append_assoc (s t u : string) : (s +:+ t) +:+ u = s +:+ t +:+ u.
Proof. induction s; simpl; congruence. Qed.

(** *** [split] and [join] *)

Lemma split_not_nil (sep : ascii) (s : string) : str.split sep s <> [].
Proof.
  induction s as [|c s IH]; simpl; [discriminate|].
  destruct (Ascii.eqb c sep); [discriminate|].
  destruct (str.split sep s); discriminate.
Qed.

Lemma join_cons (sep x : string) (l : list string) :
  l <> [] -> str.join sep (x :: l) = x +:+ sep +:+ str.join sep l.
Proof. destruct l; [congruence|reflexivity]. Qed.

Lemma join_split (sep : ascii) (s : string) :
  str.join (String sep "") (str.split sep s) = s.
Proof.
  induction s as [|c s IH]; [reflexivity|]. simpl str.split.
  destruct (Ascii.eqb_spec c sep) as [->|Hne].
  - rewrite join_cons by apply split_not_nil. rewrite IH. reflexivity.
  - pose proof (split_not_nil sep s) as Hnil.
    destruct (str.split sep s) as [|p ps]; [congruence|].
    destruct ps as [|q ps].
    + simpl in *. congruence.
    + rewrite <- IH. reflexivity.
Qed.

Lemma split_no_sep (sep : ascii) (s : string) :
  Forall (fun p => has_char sep p = false) (str.split sep s).
Proof.
  induction s as [|c s IH]; simpl.
  - repeat constructor.
  - destruct (Ascii.eqb c sep) eqn:Hc.
    + constructor; [reflexivity|exact IH].
    + destruct (str.split sep s) as [|p ps]; simpl.
      * repeat constructor. simpl. rewrite Hc. reflexivity.
      * inversion IH; subst. constructor; [|assumption].
        simpl. rewrite Hc. assumption.
Qed.

Lemma split_piece (sep : ascii) (x : string) :
  has_char sep x = false -> str.split sep x = [x].
Proof.
  induction x as [|c x IH]; simpl; [reflexivity|].
  intros H. apply orb_false_iff in H as [Hc Hx]. rewrite Hc, (IH Hx).
  reflexivity.
Qed.

Lemma split_piece_then (sep : ascii) (x r : string) :
  has_char sep x = false ->
  str.split sep (x +:+ String sep r) = x :: str.split sep r.
Proof.
  induction x as [|c x IH]; simpl.
  - intros _. rewrite Ascii.eqb_refl. reflexivity.
  - intros H. apply orb_false_iff in H as [Hc Hx]. rewrite Hc, (IH Hx).
    reflexivity.
Qed.

Lemma split_join (sep : ascii) (l : list string) :
  l <> [] -> Forall (fun p => has_char sep p = false) l ->
  str.split sep (str.join (String sep "") l) = l.
Proof.
  induction l as [|x l IH]; [congruence|]. intros _ Hall.
  inversion Hall as [|? ? Hx Hl]; subst.
  destruct l as [|y l].
  - simpl. apply split_piece, Hx.
  - rewrite join_cons by discriminate.
    change (str.split sep (x +:+ String sep (str.join (String sep "") (y :: l)))
            = x :: y :: l).
    rewrite split_piece_then by exact Hx.
    rewrite IH; [reflexivity|discriminate|exact Hl].
Qed.

(** The pieces of a text are those [split] returns, and no other list. *)
Lemma comma_pieces_split (txt : string) (pieces : list string) :
  comma_pieces txt pieces <-> pieces = str.split "," txt.
Proof.
  split.
  - intros (Hnil & Hjoin & Hall). subst txt. symmetry.
    apply (split_join "," pieces Hnil Hall).
  - intros ->. split; [apply split_not_nil|].
    split; [apply (join_split ",")|apply split_no_sep].
Qed.

(** *** [strip] *)

Lemma lstrip_decompose (s : string) :
  exists l, s = l +:+ str.lstrip s /\ all_space l = true
            /\ not_space_at (first_char (str.lstrip s)).
Proof.
  induction s as [|c s (l & Hl & Hsp & Hfirst)]; simpl.
  - exists "". repeat split. intros c [=].
  - destruct (str.isspace c) eqn:Hc.
    + exists (String c l). simpl. rewrite Hc, Hsp. repeat split; auto.
      congruence.
    + exists "". repeat split. intros c' [= <-]. exact Hc.
Qed.

Lemma rstrip_decompose (s : string) :
  exists r, s = str.rstrip s +:+ r /\ all_space r = true
            /\ not_space_at (last_char (str.rstrip s)).
Proof.
  induction s as [|c s (r & Hr & Hsp & Hlast)]; simpl.
  - exists "". repeat split. intros c [=].
  - destruct (str.rstrip s) as [|c' s'] eqn:Hs.
    + destruct (str.isspace c) eqn:Hc.
      * exists (String c r). simpl in *. rewrite Hc, Hsp. repeat split.
        congruence. intros ? [=].
      * exists r. simpl in *. repeat split; auto. congruence.
        intros ? [= <-]. exact Hc.
    + exists r. simpl in *. repeat split; auto. congruence.
Qed.

Lemma rstrip_first_char (s : string) :
  not_space_at (first_char s) -> not_space_at (first_char (str.rstrip s)).
Proof.
  destruct s as [|c s]; simpl; [auto|]. intros H.
  destruct (str.rstrip s).
  - destruct (str.isspace c) eqn:Hc; simpl; [intros ? [=]|exact H].
  - exact H.
Qed.

Lemma strip_trimmed (p : string) : trimmed p (str.strip p).
Proof.
  unfold str.strip.
  destruct (lstrip_decompose p) as (l & Hl & Hlsp & Hfirst).
  destruct (rstrip_decompose (str.lstrip p)) as (r & Hr & Hrsp & Hlast).
  exists l, r. split; [congruence|].
  repeat split; auto using rstrip_first_char.
Qed.

Lemma lstrip_all_space (l s : string) :
  all_space l = true -> str.lstrip (l +:+ s) = str.lstrip s.
Proof.
  induction l as [|c l IH]; simpl; [reflexivity|].
  intros H. apply andb_true_iff in H as [-> Hl]. auto.
Qed.

Lemma lstrip_first_char (s : string) :
  not_space_at (first_char s) -> str.lstrip s = s.
Proof.
  destruct s as [|c s]; simpl; [reflexivity|].
  intros H. rewrite (H c eq_refl). reflexivity.
Qed.

Lemma rstrip_all_space (r : string) : all_space r = true -> str.rstrip r = "".
Proof.
  induction r as [|c r IH]; simpl; [reflexivity|].
  intros H. apply andb_true_iff in H as [-> Hr]. rewrite (IH Hr). reflexivity.
Qed.

Lemma rstrip_last_char (t r : string) :
  not_space_at (last_char t) -> all_space r = true ->
  str.rstrip (t +:+ r) = t.
Proof.
  intros Hlast Hr. induction t as [|c t IH]; simpl.
  - apply rstrip_all_space, Hr.
  - destruct t as [|c' t].
    + simpl. rewrite (rstrip_all_space r Hr), (Hlast c eq_refl). reflexivity.
    + rewrite IH by exact Hlast. reflexivity.
Qed.

(** Trimming has one result. *)
Lemma trimmed_strip (p t : string) : trimmed p t <-> t = str.strip p.
Proof.
  split; [|intros ->; apply strip_trimmed].
  intros (l & r & -> & Hl & Hr & Hfirst & Hlast). unfold str.strip.
  rewrite lstrip_all_space by exact Hl.
  destruct t as [|c t].
  - simpl. rewrite <- (append_nil_r r), (lstrip_all_space r "" Hr). reflexivity.
  - rewrite lstrip_first_char.
    + symmetry. apply rstrip_last_char; assumption.
    + exact Hfirst.
Qed.

Lemma split_then_trim_iff (txt : string) (l : list string) :
  split_then_trim txt l <-> l = List.map str.strip (str.split "," txt).
Proof.
  unfold split_then_trim. split.
  - intros (pieces & Hp & Htrim). apply comma_pieces_split in Hp as <-.
    induction Htrim as [|p t ps ts Ht _ IH]; simpl; [reflexivity|].
    apply trimmed_strip in Ht. congruence.
  - intros ->. exists (str.split "," txt).
    split; [apply comma_pieces_split; reflexivity|].
    induction (str.split "," txt) as [|p ps IH]; simpl; constructor; auto.
    apply strip_trimmed.
Qed.

Lemma extract_comma_list_spec (marker : string) (item d sp : node)
    (ds : list node) (l : list string) :
  bs4.select "div" marker item = d :: ds ->
  bs4.find field_content_span d = Some sp ->
  extract_comma_list marker item = OK l <-> split_then_trim (bs4.text sp) l.
Proof.
  intros Hd Hsp. unfold extract_comma_list. rewrite Hd, Hsp.
  rewrite split_then_trim_iff. split; [intros [= <-]|intros ->]; reflexivity.
Qed.

(** ** C2: the comma-list fields *)

(** C2: on a node whose first marked [div] has a field-content span,
    [get_author_list] (and in the same way [get_topics_list]) returns [l]
    exactly when [l] is the text of the span cut at its commas, each piece
    trimmed, in order and with the empty pieces kept; the three texts of
    the specification give the three lists it names. *)
Theorem comma_lists_split_then_trim (item : node) :
  (forall d ds sp l,
     bs4.select "div" "paper-author" item = d :: ds ->
     bs4.find field_content_span d = Some sp ->
     get_author_list item = OK l <-> split_then_trim (bs4.text sp) l)
  /\ (forall d ds sp l,
     bs4.select "div" "paper-topics" item = d :: ds ->
     bs4.find field_content_span d = Some sp ->
     get_topics_list item = OK l <-> split_then_trim (bs4.text sp) l)
  /\ (forall f, f = get_author_list \/ f = get_topics_list ->
      f (listing "t" "/h" "Jane Doe, John Smith" "d" "a" "Jane Doe, John Smith")
        = OK ["Jane Doe"; "John Smith"]
      /\ f (listing "t" "/h" "Solo Author" "d" "a" "Solo Author")
        = OK ["Solo Author"]
      /\ f (listing "t" "/h" "A,, B" "d" "a" "A,, B") = OK ["A"; ""; "B"]).
Proof.
  split; [|split].
  - intros d ds sp l Hd Hsp. rewrite get_author_list_unfold.
    eapply extract_comma_list_spec; eauto.
  - intros d ds sp l Hd Hsp. rewrite get_topics_list_unfold.
    eapply extract_comma_list_spec; eauto.
  - intros f [-> | ->]; repeat split; vm_compute; reflexivity.
Qed.

Lemma comma_lists_split_then_trim_witness :
  split_then_trim "A,, B" ["A"; ""; "B"]
  /\ split_then_trim " X ,Y,  " ["X"; "Y"; ""].
Proof.
  destruct (comma_lists_split_then_trim comma_listing) as (Ha & Ht & _).
  split.
  - apply (Ha (field_div ["views-field"; "views-field-field-paper-author"]
                 "A,, B") [] (span_field "A,, B") ["A"; ""; "B"]);
      vm_compute; reflexivity.
  - apply (Ht (field_div ["views-field"; "views-field-field-paper-topics"]
                 " X ,Y,  ") [] (span_field " X ,Y,  ") ["X"; "Y"; ""]);
      vm_compute; reflexivity.
Defined.

(** ** C7: the output path *)

Lemma endswith_refl (s : string) : str.endswith s s = true.
Proof.
  destruct s as [|c s]; [reflexivity|].
  change (String.eqb (String c s) (String c s) || str.endswith s (String c s)
          = true).
  rewrite String.eqb_refl. reflexivity.
Qed.

Lemma endswith_app (a b : string) : str.endswith (a +:+ b) b = true.
Proof.
  induction a as [|c a IH]; simpl; [apply endswith_refl|].
  rewrite IH. apply orb_true_r.
Qed.

Lemma join_endswith (a b suffix : string) :
  str.endswith b suffix = true ->
  str.endswith (os_path.join a b) suffix = true.
Proof.
  intros Hb. unfold os_path.join.
  assert (forall x, str.endswith (x +:+ b) suffix = true) as Happ.
  { induction x as [|c x IH]; simpl; [exact Hb|].
    rewrite IH. apply orb_true_r. }
  destruct (str.startswith b "/"); [exact Hb|].
  destruct (_ || _); [apply Happ|].
  rewrite <- append_assoc. apply Happ.
Qed.

(** C7 does not hold as worded: with [is_dir] telling which paths name a
    directory, the path opened is not always the one the wording gives.
    The file path [/tmp/papers.txt] is not used as it stands. *)
Lemma target_by_kind_counterexample :
  ~ (forall (is_dir : string -> bool) (cwd : string) (now : clock)
            (outpath : string),
       main_outpath now (parse_args cwd None (Some outpath) false)
       = target_by_kind is_dir now outpath).
Proof.
  intros H.
  specialize (H (fun _ => false) "/home/u" noon "/tmp/papers.txt").
  vm_compute in H. discriminate H.
Qed.

(** C7 as the code has it: the path given on the command line is first
    made absolute; when the absolute path does not end in [.json] (be it
    a directory or not) the path opened is that path joined with
    [<timestamp>.json], and when it ends in [.json] it is opened as made
    absolute, nothing added.  Either way the path opened ends in [.json]. *)
Theorem main_outpath_by_suffix (cwd : string) (now : clock)
    (url_opt outpath_opt : option string) (silent_flag : bool) :
  let args := parse_args cwd url_opt outpath_opt silent_flag in
  arg_outpath args = os_path.abspath cwd (default "./" outpath_opt)
  /\ (str.endswith (arg_outpath args) ".json" = false ->
      main_outpath now args
      = os_path.join (arg_outpath args) (strftime_stamp now +:+ ".json"))
  /\ (str.endswith (arg_outpath args) ".json" = true ->
      main_outpath now args = arg_outpath args)
  /\ str.endswith (main_outpath now args) ".json" = true.
Proof.
  intros args. split; [reflexivity|].
  unfold main_outpath, add_filename_default.
  destruct (str.endswith (arg_outpath args) ".json") eqn:Hsuffix;
    cbv [negb].
  - repeat split; auto. discriminate.
  - repeat split; auto; try discriminate.
    apply join_endswith, endswith_app.
Qed.

Lemma main_outpath_by_suffix_witness :
  main_outpath noon (parse_args "/home/u" None (Some "out/papers.txt") false)
    = "/home/u/out/papers.txt/2024-03-05-12-00-00.json"
  /\ main_outpath noon (parse_args "/home/u" None (Some "./data/../p.json") false)
    = "/home/u/p.json".
Proof.
  split.
  - destruct (main_outpath_by_suffix "/home/u" noon None
                (Some "out/papers.txt") false) as (_ & Hjoin & _ & _).
    rewrite Hjoin; vm_compute; reflexivity.
  - destruct (main_outpath_by_suffix "/home/u" noon None
                (Some "./data/../p.json") false) as (_ & _ & Hkeep & _).
    rewrite Hkeep; vm_compute; reflexivity.
Defined.

(** ** C8: what the extractors raise *)

(** C8 does not hold as worded: no reading of the exception gives back
    the field and the position.  A node without any marker element makes
    every extractor raise the same exception, wherever the node stands. *)
Lemma errors_name_field_and_position_counterexample :
  ~ errors_name_field_and_position.
Proof.
  intros (identify & H).
  destruct (H [bare_item; bare_item] 0%nat bare_item Authors eq_refl eq_refl)
    as (e0 & He0 & Hid0).
  destruct (H [bare_item; bare_item] 1%nat bare_item Authors eq_refl eq_refl)
    as (e1 & He1 & Hid1).
  vm_compute in He0, He1. congruence.
Qed.

(** C8 as the code has it: when no [div] carries the marker, the
    extractor raises [IndexError]; when the first such [div] has no
    field-content span, the author, topics and date extractors raise the
    [AttributeError] of reading [text] on [None], and the abstract
    extractor, which reads no span, returns the trimmed text of the
    [div].  The exception carries neither the field nor the node. *)
Theorem extractors_raise_builtin_errors (item : node) :
  (forall f, bs4.select "div" (marker f) item = [] ->
             raised_by f item = Some IndexError)
  /\ (forall f d ds,
        bs4.select "div" (marker f) item = d :: ds ->
        bs4.find field_content_span d = None ->
        f <> Abstract ->
        raised_by f item = Some (AttributeError "text"))
  /\ (forall d ds,
        bs4.select "div" (marker Abstract) item = d :: ds ->
        get_abstract item = OK (str.strip (bs4.text d))).
Proof.
  split; [|split].
  - intros [] Hnone; simpl in *;
      unfold get_author_list, get_topics_list, get_abstract, get_date;
      rewrite Hnone; reflexivity.
  - intros [] d ds Hd Hspan Hf; try congruence; simpl in *;
      unfold get_author_list, get_topics_list, get_date;
      rewrite Hd; simpl; rewrite Hspan; reflexivity.
  - intros d ds Hd. simpl in Hd. unfold get_abstract. rewrite Hd. reflexivity.
Qed.

Lemma extractors_raise_builtin_errors_witness :
  raised_by Topics bare_item = Some IndexError
  /\ raised_by Pubdate spanless_item = Some (AttributeError "text")
  /\ get_abstract spanless_item = OK "a".
Proof.
  split; [|split].
  - apply (proj1 (extractors_raise_builtin_errors bare_item) Topics).
    reflexivity.
  - apply (proj1 (proj2 (extractors_raise_builtin_errors spanless_item))
             Pubdate (Tag "div" ["paper-pubdate"] ∅
                        [NavigableString "1 March 2001"]) []).
    + vm_compute; reflexivity.
    + vm_compute; reflexivity.
    + discriminate.
  - apply (proj2 (proj2 (extractors_raise_builtin_errors spanless_item))
             (Tag "div" ["paper-abstract"] ∅ [NavigableString " a "]) []).
    vm_compute; reflexivity.
Defined.

(** ** C6: how elements are matched on their class *)

Lemma startswith_spec (s p : string) :
  str.startswith s p = true <-> exists post, s = p +:+ post.
Proof.
  revert s; induction p as [|a p IH]; intros s; simpl.
  - split; [intros _; exists s; reflexivity|reflexivity].
  - destruct s as [|c s]; simpl.
    + split; [discriminate|]. intros (post & [=]).
    + rewrite andb_true_iff, IH. split.
      * intros (Hc%Ascii.eqb_eq & post & ->). subst. eauto.
      * intros (post & [= -> ->]). split; [apply Ascii.eqb_refl|eauto].
Qed.

Lemma contains_spec (s p : string) :
  str.contains s p = true <-> exists pre post, s = pre +:+ p +:+ post.
Proof.
  induction s as [|c s IH].
  - change (str.contains "" p) with (str.startswith "" p || false).
    rewrite orb_false_r, startswith_spec. split.
    + intros (post & ->). exists "", post. reflexivity.
    + intros (pre & post & H). destruct pre; simpl in H; [eauto|discriminate].
  - change (str.contains (String c s) p)
      with (str.startswith (String c s) p || str.contains s p).
    rewrite orb_true_iff, startswith_spec, IH. split.
    + intros [(post & ->) | (pre & post & ->)].
      * exists "", post. reflexivity.
      * exists (String c pre), post. reflexivity.
    + intros (pre & post & H). destruct pre as [|c' pre]; simpl in H.
      * left. eauto.
      * injection H as -> ->. right. eauto.
Qed.

Lemma head_filter_Some {A} (p : A -> bool) (l : list A) (x : A) :
  head (List.filter p l) = Some x -> In x l /\ p x = true.
Proof.
  intros H. apply List.filter_In.
  destruct (List.filter p l); simpl in H; [discriminate|].
  injection H as ->. left. reflexivity.
Qed.

Lemma head_filter_None {A} (p : A -> bool) (l : list A) :
  head (List.filter p l) = None <-> forall x, In x l -> p x = false.
Proof.
  split.
  - intros H x Hx. destruct (p x) eqn:Hp; [|reflexivity].
    assert (In x (List.filter p l)) as Hin by (apply List.filter_In; auto).
    destruct (List.filter p l); [destruct Hin|discriminate].
  - intros H. destruct (List.filter p l) as [|x l'] eqn:Hf; [reflexivity|].
    assert (In x (List.filter p l)) as Hin by (rewrite Hf; left; reflexivity).
    apply List.filter_In in Hin as [Hin Hp]. rewrite (H x Hin) in Hp.
    discriminate.
Qed.

Lemma class_matches_spec (v : string) (n : node) :
  bs4.class_matches v n = true <->
  bs4.is_tag n = true /\ (In v (bs4.classes n) \/ bs4.class_string n = v).
Proof.
  unfold bs4.class_matches.
  rewrite andb_true_iff, orb_true_iff, existsb_exists, String.eqb_eq.
  split; intros [Htag Hm]; (split; [exact Htag|]).
  - destruct Hm as [(t & Hin & ->%String.eqb_eq)|Heq]; auto.
  - destruct Hm as [Hin|Heq]; [left|auto].
    exists v. split; [exact Hin|apply String.eqb_refl].
Qed.

Lemma has_name_spec (nm : string) (n : node) :
  bs4.has_name nm n = true <-> bs4.name n = Some nm.
Proof.
  unfold bs4.has_name. destruct (bs4.name n) as [nm'|].
  - rewrite String.eqb_eq. split; congruence.
  - split; discriminate.
Qed.

Lemma field_content_span_spec (n : node) :
  field_content_span n = true <->
  bs4.name n = Some "span"
  /\ (In "field-content" (bs4.classes n)
      \/ bs4.class_string n = "field-content").
Proof.
  unfold field_content_span.
  rewrite andb_true_iff, has_name_spec, class_matches_spec. split.
  - intros (Hname & _ & Hm). auto.
  - intros (Hname & Hm). repeat split; auto.
    destruct n; [discriminate..|reflexivity].
Qed.

(** What [find] returns is the first element, in document order, that
    the filter takes. *)
Lemma head_filter_first {A} (p : A -> bool) (l : list A) (x : A) :
  head (List.filter p l) = Some x ->
  exists before after,
    l = before ++ x :: after /\ forall y, In y before -> p y = false.
Proof.
  induction l as [|a l IH]; simpl; [discriminate|].
  destruct (p a) eqn:Hp; simpl.
  - intros [= ->]. exists [], l. split; [reflexivity|]. intros y [].
  - intros H. destruct (IH H) as (before & after & -> & Hb).
    exists (a :: before), after. split; [reflexivity|].
    intros y [<- | Hy]; auto.
Qed.

(** C6 does not hold as worded for the results container: the class
    value [search-results-list] contains the marker, and the lookup finds
    nothing. *)
Lemma container_found_by_substring_counterexample :
  ~ container_found_by_substring.
Proof.
  intros H.
  destruct (H longer_token_page
              (Tag "div" ["search-results-list"] ∅ [Tag "ul" [] ∅ [bare_item]])
              "search-results") as (e' & He').
  - left. reflexivity.
  - reflexivity.
  - reflexivity.
  - vm_compute in He'. discriminate He'.
Qed.

(** C6 as the code has it: each of the four field lookups selects exactly
    the [div] elements below the node whose class value contains the
    marker somewhere, inside a longer token too.  The container lookup is
    no substring match: it finds an element only when one of its class
    tokens is the marker, or its whole class value is, and finds none
    exactly when no element below has that.  The lookup of the nested
    span is a third filter: it finds only a [span] element that has the
    class token [field-content] (or that whole class value), and none
    exactly when no [span] below has it.  Both return the first element
    in document order that they take. *)
Theorem class_matching_by_lookup (item : node) (mark : string) :
  (forall d, In d (bs4.select "div" mark item) <->
             In d (bs4.descendants item) /\ bs4.name d = Some "div"
             /\ exists pre post, bs4.class_string d = pre +:+ mark +:+ post)
  /\ (forall e, bs4.find (bs4.class_matches mark) item = Some e ->
                In e (bs4.descendants item)
                /\ (In mark (bs4.classes e) \/ bs4.class_string e = mark))
  /\ (bs4.find (bs4.class_matches mark) item = None <->
      forall e, In e (bs4.descendants item) -> bs4.is_tag e = true ->
                ~ In mark (bs4.classes e) /\ bs4.class_string e <> mark)
  /\ (forall e, bs4.find field_content_span item = Some e ->
                In e (bs4.descendants item)
                /\ bs4.name e = Some "span"
                /\ (In "field-content" (bs4.classes e)
                    \/ bs4.class_string e = "field-content"))
  /\ (bs4.find field_content_span item = None <->
      forall e, In e (bs4.descendants item) -> bs4.name e = Some "span" ->
                ~ In "field-content" (bs4.classes e)
                /\ bs4.class_string e <> "field-content")
  /\ (forall e, bs4.find (bs4.class_matches mark) item = Some e ->
        exists before after,
          bs4.descendants item = before ++ e :: after
          /\ forall x, In x before -> bs4.is_tag x = true ->
                ~ In mark (bs4.classes x) /\ bs4.class_string x <> mark)
  /\ (forall e, bs4.find field_content_span item = Some e ->
        exists before after,
          bs4.descendants item = before ++ e :: after
          /\ forall x, In x before -> bs4.name x = Some "span" ->
                ~ In "field-content" (bs4.classes x)
                /\ bs4.class_string x <> "field-content").
Proof.
  assert (forall x, bs4.class_matches mark x = false -> bs4.is_tag x = true ->
            ~ In mark (bs4.classes x) /\ bs4.class_string x <> mark) as Hnot.
  { intros x Hx Htag. split; intros Hm;
      (assert (bs4.class_matches mark x = true) as Hc
         by (apply class_matches_spec; auto)); congruence. }
  assert (forall x, field_content_span x = false -> bs4.name x = Some "span" ->
            ~ In "field-content" (bs4.classes x)
            /\ bs4.class_string x <> "field-content") as Hnot_span.
  { intros x Hx Hname. split; intros Hm;
      (assert (field_content_span x = true) as Hc
         by (apply field_content_span_spec; auto)); congruence. }
  refine (conj _ (conj _ (conj _ (conj _ (conj _ (conj _ _)))))).
  - intros d. unfold bs4.select. rewrite List.filter_In.
    unfold bs4.css_class_contains, bs4.has_name.
    rewrite andb_true_iff, contains_spec.
    destruct (bs4.name d) as [nm|]; split.
    + intros (Hin & ->%String.eqb_eq & Hsub). auto.
    + intros (Hin & [= ->] & Hsub). auto using String.eqb_refl.
    + intros (_ & [=] & _).
    + intros (_ & [=] & _).
  - intros e He. apply head_filter_Some in He as [Hin Hm].
    apply class_matches_spec in Hm as [_ Hm]. auto.
  - unfold bs4.find, bs4.find_all. rewrite head_filter_None. split.
    + intros H e Hin Htag. apply Hnot; auto.
    + intros H e Hin. destruct (bs4.class_matches mark e) eqn:Hc; [|reflexivity].
      apply class_matches_spec in Hc as [Htag Hm].
      destruct (H e Hin Htag) as [H1 H2]. destruct Hm; contradiction.
  - intros e He. apply head_filter_Some in He as [Hin Hm].
    apply field_content_span_spec in Hm as [Hname Hm]. auto.
  - unfold bs4.find, bs4.find_all. rewrite head_filter_None. split.
    + intros H e Hin Hname. apply Hnot_span; auto.
    + intros H e Hin. destruct (field_content_span e) eqn:Hc; [|reflexivity].
      apply field_content_span_spec in Hc as [Hname Hm].
      destruct (H e Hin Hname) as [H1 H2]. destruct Hm; contradiction.
  - intros e He. apply head_filter_first in He as (before & after & Hl & Hb).
    exists before, after. split; [exact Hl|]. intros x Hx. apply Hnot, Hb, Hx.
  - intros e He. apply head_filter_first in He as (before & after & Hl & Hb).
    exists before, after. split; [exact Hl|].
    intros x Hx. apply Hnot_span, Hb, Hx.
Qed.

(** The container of a page is found by its token; in a [div] that holds
    a [b] of class [field-content] before the span, the span lookup
    passes over the [b]. *)
Lemma class_matching_by_lookup_witness :
  In (field_div ["views-field"; "views-field-field-paper-author"] "A,, B")
     (bs4.select "div" "paper-author" comma_listing)
  /\ (In "search-results"
         (bs4.classes (Tag "div" ["view-content"; "search-results"] ∅
                         [Tag "ul" [] ∅ []]))
       \/ bs4.class_string (Tag "div" ["view-content"; "search-results"] ∅
                              [Tag "ul" [] ∅ []]) = "search-results")
  /\ (In (span_field "Abe") (bs4.descendants bold_before_span)
      /\ bs4.name (span_field "Abe") = Some "span"
      /\ (In "field-content" (bs4.classes (span_field "Abe"))
          \/ bs4.class_string (span_field "Abe") = "field-content")).
Proof.
  split; [|split].
  - apply (proj1 (class_matching_by_lookup comma_listing "paper-author")).
    split; [|split].
    + do 3 right. left. reflexivity.
    + reflexivity.
    + exists "views-field views-field-field-", "". reflexivity.
  - apply (proj1 (proj2 (class_matching_by_lookup (page_of []) "search-results"))).
    reflexivity.
  - apply (proj1 (proj2 (proj2 (proj2
             (class_matching_by_lookup bold_before_span "x"))))).
    reflexivity.
Defined.

(** ** The date expression *)

Section Then.
Import datetime.
Context {X : Type}.
Implicit Types (k : string -> string -> list X) (p q : matcher).



Lemma then_In p k (s : string) (x : X) :
  In x (then_ p k s) <-> exists m r, In (m, r) (p s) /\ In x (k m r).
Proof.
  unfold then_. rewrite List.in_flat_map. split.
  - intros ([m r] & Hin & Hx). eauto.
  - intros (m & r & Hin & Hx). exists (m, r). auto.
Qed.

End Then.


(** *** Character classes *)


Lemma digit_not_space (c : ascii) :
  datetime.digit c = true -> str.isspace c = false.
Proof.
  destruct c as [[] [] [] [] [] [] [] []]; vm_compute;
    (discriminate || auto).
Qed.

(** Case analysis on an integer of a known range. *)
Lemma Z_range_cases (lo len n : Z) :
  lo <= n < lo + len -> In n (seqZ lo len).
Proof. intros H. apply list_elem_of_In, elem_of_seqZ. exact H. Qed.

Ltac range_cases H lo len :=
  let Hin := fresh "Hin" in
  match type of H with
  | _ <= ?n <= _ =>
      assert (In n (seqZ lo len)) as Hin by (apply Z_range_cases; lia);
      clear H; vm_compute in Hin;
      repeat (destruct Hin as [<- | Hin]); [..|destruct Hin]
  end.

Lemma digit_char_spec (n : Z) :
  0 <= n <= 9 ->
  datetime.digit (datetime.digit_char n) = true
  /\ datetime.digit_val (datetime.digit_char n) = n.
Proof. intros H. range_cases H 0 10; split; reflexivity. Qed.

Lemma digit_spec (c : ascii) :
  datetime.digit c = true ->
  exists n, 0 <= n <= 9 /\ c = datetime.digit_char n.
Proof.
  intros H. exists (datetime.digit_val c).
  destruct c as [[] [] [] [] [] [] [] []]; try discriminate H;
    vm_compute; repeat split; congruence.
Qed.

(** *** Each part of the expression takes the texts of its form *)










Lemma take_drop (n : nat) (s : string) : s = str.take n s +:+ str.drop n s.
Proof.
  revert s; induction n as [|n IH]; intros [|c s]; simpl; try reflexivity.
  rewrite <- IH. reflexivity.
Qed.


Ltac eval_lhs H :=
  match type of H with
  | ?l = _ => let v := eval vm_compute in l in change l with v in H
  end.


Lemma year_digits (y : Z) :
  0 <= y <= 9999 ->
  0 <= y / 1000 <= 9 /\ 0 <= y / 100 mod 10 <= 9
  /\ 0 <= y / 10 mod 10 <= 9 /\ 0 <= y mod 10 <= 9
  /\ 10 * (10 * (10 * (y / 1000) + y / 100 mod 10) + y / 10 mod 10)
     + y mod 10 = y.
Proof. intros H. Z.div_mod_to_equations. lia. Qed.


(** *** Conversion of the matched texts *)

Lemma strip_no_space_ends (s : string) :
  not_space_at (first_char s) -> not_space_at (last_char s) ->
  str.strip s = s.
Proof.
  intros Hf Hl. unfold str.strip. rewrite (lstrip_first_char s Hf).
  rewrite <- (append_nil_r s) at 1. apply rstrip_last_char; auto.
Qed.

Lemma int_day (td : string) (d : Z) : day_text td d -> datetime.int td = d.
Proof.
  intros [Hd Htd].
  destruct Htd as [-> | [H9 ->]];
    range_cases Hd 1 31; try (exfalso; lia); reflexivity.
Qed.

Lemma int_year (ty : string) (y : Z) : year_text ty y -> datetime.int ty = y.
Proof.
  intros [Hy ->].
  destruct (year_digits y Hy) as (H1 & H2 & H3 & H4 & Hsum).
  unfold datetime.int. rewrite strip_no_space_ends.
  - unfold datetime.pad4, datetime.int_digits.
    rewrite (proj2 (digit_char_spec _ H1)), (proj2 (digit_char_spec _ H2)),
      (proj2 (digit_char_spec _ H3)), (proj2 (digit_char_spec _ H4)).
    lia.
  - intros c [= <-]. apply digit_not_space, digit_char_spec, H1.
  - intros c [= <-]. apply digit_not_space, digit_char_spec, H4.
Qed.

Lemma index_month (tm : string) (m : Z) :
  month_text tm m -> datetime.index datetime.f_month (str.lower tm) = m.
Proof.
  intros [Hm Hname].
  range_cases Hm 1 12; eval_lhs Hname; injection Hname as <-; reflexivity.
Qed.








(** *** Each part of the expression takes only the texts of its form *)

Lemma one_In (p : ascii -> bool) (s t r : string) :
  In (t, r) (datetime.one p s) ->
  exists a, s = String a r /\ t = String a "" /\ p a = true.
Proof.
  unfold datetime.one. destruct s as [|a s]; [intros []|].
  destruct (p a) eqn:Hp; [|intros []].
  intros [[= <- <-]|[]]. eauto.
Qed.

Lemma cat_In (p q : datetime.matcher) (s t r : string) :
  In (t, r) (datetime.cat p q s) ->
  exists t1 r1 t2, In (t1, r1) (p s) /\ In (t2, r) (q r1) /\ t = t1 +:+ t2.
Proof.
  unfold datetime.cat. rewrite then_In. intros (t1 & r1 & H1 & H).
  apply then_In in H as (t2 & r2 & H2 & [[= <- <-]|[]]).
  exists t1, r1, t2. auto.
Qed.

Lemma one_one_In (p q : ascii -> bool) (s t r : string) :
  In (t, r) (datetime.cat (datetime.one p) (datetime.one q) s) ->
  exists a b, s = String a (String b r) /\ t = String a (String b "")
              /\ p a = true /\ q b = true.
Proof.
  intros (t1 & r1 & t2 & H1 & H2 & ->)%cat_In.
  apply one_In in H1 as (a & -> & -> & Ha).
  apply one_In in H2 as (b & -> & -> & Hb).
  exists a, b. auto.
Qed.

Ltac enumerate c H :=
  destruct c as [[] [] [] [] [] [] [] []]; try discriminate H; clear H.

Ltac give_day t :=
  let v := eval vm_compute in (datetime.int t) in
  exists v; split; [lia|]; first [left; reflexivity | right; split; [lia|reflexivity]].

Lemma re_d_sound (s t r : string) :
  In (t, r) (datetime.re_d s) ->
  s = t +:+ r /\ ((exists d, day_text t d) \/ first_char s = Some " "%char).
Proof.
  unfold datetime.re_d, datetime.alt. rewrite !in_app_iff.
  intros [H|[H|[H|[H|H]]]].
  - apply one_one_In in H as (a & b & -> & -> & Ha & Hb).
    split; [reflexivity|left].
    enumerate a Ha; enumerate b Hb;
      match goal with |- exists d, day_text ?t d => give_day t end.
  - apply one_one_In in H as (a & b & -> & -> & Ha & Hb).
    split; [reflexivity|left].
    enumerate a Ha; enumerate b Hb;
      match goal with |- exists d, day_text ?t d => give_day t end.
  - apply one_one_In in H as (a & b & -> & -> & Ha & Hb).
    split; [reflexivity|left].
    enumerate a Ha; enumerate b Hb;
      match goal with |- exists d, day_text ?t d => give_day t end.
  - apply one_In in H as (a & -> & -> & Ha).
    split; [reflexivity|left].
    enumerate a Ha;
      match goal with |- exists d, day_text ?t d => give_day t end.
  - apply one_one_In in H as (a & b & -> & -> & Ha & Hb).
    split; [reflexivity|right].
    enumerate a Ha. reflexivity.
Qed.

Lemma plus_sound (s w r : string) :
  In (w, r) (datetime.plus str.isspace s) -> s = w +:+ r /\ blanks w.
Proof.
  revert w; induction s as [|c s IH]; intros w; simpl; [intros []|].
  destruct (str.isspace c) eqn:Hc; [|intros []].
  rewrite in_app_iff, List.in_map_iff.
  intros [([w' r'] & [= <- <-] & Hin)|[[= <- <-]|[]]].
  - destruct (IH w' Hin) as (-> & Hne & Hall). simpl.
    split; [reflexivity|]. split; [discriminate|].
    simpl. rewrite Hc. exact Hall.
  - split; [reflexivity|]. split; [discriminate|].
    simpl. rewrite Hc. reflexivity.
Qed.

Lemma startswith_lower_take (w s : string) :
  str.startswith (str.lower s) w = true ->
  str.lower (str.take (String.length w) s) = w.
Proof.
  revert s; induction w as [|a w IH]; intros s; simpl.
  - destruct s; reflexivity.
  - destruct s as [|c s]; simpl; [discriminate|].
    intros [Ha%Ascii.eqb_eq Hw]%andb_true_iff.
    rewrite (IH s Hw), Ha. reflexivity.
Qed.

Lemma re_B_sound (s t r : string) :
  In (t, r) (datetime.re_B s) -> s = t +:+ r /\ exists m, month_text t m.
Proof.
  unfold datetime.re_B. rewrite List.in_flat_map.
  intros (w & Hw & Hin). unfold datetime.iword in Hin.
  destruct (str.startswith (str.lower s) w) eqn:Hs; [|destruct Hin].
  destruct Hin as [[= <- <-]|[]]. split; [apply take_drop|].
  apply startswith_lower_take in Hs. rewrite <- Hs in Hw.
  exists (datetime.index datetime.f_month
            (str.lower (str.take (String.length w) s))).
  unfold month_text. unfold datetime.month_alternatives in Hw.
  simpl in Hw.
  repeat (destruct Hw as [Hw|Hw]; [rewrite <- Hw; split; [vm_compute; split; discriminate|reflexivity]|]).
  destruct Hw.
Qed.

Lemma re_Y_sound (s t r : string) :
  In (t, r) (datetime.re_Y s) -> s = t +:+ r /\ exists y, year_text t y.
Proof.
  unfold datetime.re_Y.
  intros (t1 & r1 & t' & H1 & H & ->)%cat_In.
  apply cat_In in H as (t2 & r2 & t'' & H2 & H & ->).
  apply one_one_In in H as (c3 & c4 & -> & -> & H3 & H4).
  apply one_In in H1 as (c1 & -> & -> & H1).
  apply one_In in H2 as (c2 & -> & -> & H2).
  split; [reflexivity|].
  apply digit_spec in H1 as (n1 & Hn1 & ->), H2 as (n2 & Hn2 & ->),
    H3 as (n3 & Hn3 & ->), H4 as (n4 & Hn4 & ->).
  exists (1000 * n1 + 100 * n2 + 10 * n3 + n4).
  split; [lia|]. unfold datetime.pad4. simpl.
  repeat f_equal; Z.div_mod_to_equations; lia.
Qed.

Lemma regex_dBY_sound (raw td tm ty rest : string) :
  In ((td, tm, ty), rest) (datetime.regex_dBY raw) ->
  exists w1 w2,
    raw = td +:+ w1 +:+ tm +:+ w2 +:+ ty +:+ rest
    /\ ((exists d, day_text td d) \/ first_char raw = Some " "%char)
    /\ blanks w1 /\ (exists m, month_text tm m) /\ blanks w2
    /\ (exists y, year_text ty y).
Proof.
  unfold datetime.regex_dBY. intros H.
  apply then_In in H as (d & r1 & Hd & H).
  apply then_In in H as (w1 & r2 & Hw1 & H).
  apply then_In in H as (b & r3 & Hb & H).
  apply then_In in H as (w2 & r4 & Hw2 & H).
  apply then_In in H as (y & r5 & Hy & [[= <- <- <- <-]|[]]).
  apply re_d_sound in Hd as (-> & Hd).
  apply plus_sound in Hw1 as (-> & Hw1).
  apply re_B_sound in Hb as (-> & Hb).
  apply plus_sound in Hw2 as (-> & Hw2).
  apply re_Y_sound in Hy as (-> & Hy).
  exists w1, w2. auto 10.
Qed.

(** [strptime] returns a date only on a text of the form, and the date
    is the one the text writes. *)
Lemma strptime_sound (raw : string) (dt : datetime.date) :
  datetime.strptime_dBY raw = OK dt ->
  not_space_at (first_char raw) ->
  date_text raw (datetime.year dt) (datetime.month dt) (datetime.day dt)
  /\ datetime.valid (datetime.year dt) (datetime.month dt) (datetime.day dt)
     = true.
Proof.
  unfold datetime.strptime_dBY. intros H Hfirst.
  destruct (datetime.regex_dBY raw) as [|[[[td tm] ty] rest] l] eqn:Hre;
    [discriminate|].
  destruct rest; [|discriminate].
  cbv zeta in H.
  remember (datetime.int ty) as y0 eqn:Ey.
  remember (datetime.index datetime.f_month (str.lower tm)) as m0 eqn:Em.
  remember (datetime.int td) as d0 eqn:Ed.
  destruct (datetime.valid y0 m0 d0) eqn:Hvalid; [|discriminate].
  injection H as <-. cbn [datetime.year datetime.month datetime.day].
  assert (In ((td, tm, ty), "") (datetime.regex_dBY raw)) as Hin
    by (rewrite Hre; left; reflexivity).
  apply regex_dBY_sound in Hin
    as (w1 & w2 & Hraw & Hd & Hw1 & (m & Hm) & Hw2 & (y & Hy)).
  rewrite append_nil_r in Hraw.
  destruct Hd as [(d & Hd)|Hblank].
  - rewrite (int_year ty y Hy) in Ey. rewrite (index_month tm m Hm) in Em.
    rewrite (int_day td d Hd) in Ed. subst y0 m0 d0.
    split; [|exact Hvalid]. exists td, w1, tm, w2, ty. auto 10.
  - specialize (Hfirst _ Hblank). discriminate Hfirst.
Qed.

Lemma strptime_raises_ValueError (raw : string) (e : exn) :
  datetime.strptime_dBY raw = Raise e -> exists why, e = ValueError why.
Proof.
  unfold datetime.strptime_dBY.
  destruct (datetime.regex_dBY raw) as [|[[[td tm] ty] rest] l];
    [intros [= <-]; eauto|].
  destruct rest; [|intros [= <-]; eauto].
  destruct (datetime.valid _ _ _); [discriminate|intros [= <-]; eauto].
Qed.

Lemma strip_first_char (s : string) : not_space_at (first_char (str.strip s)).
Proof. destruct (strip_trimmed s) as (l & r & _ & _ & _ & H & _). exact H. Qed.

(** ** C1: the date *)









(** * Further properties of the extraction functions *)

(** ** The tree *)

Lemma node_nested_ind (P : node -> Prop) :
  (forall s, P (NavigableString s)) ->
  (forall k s, P (SpecialString k s)) ->
  (forall nm cl at_ cs, List.Forall P cs -> P (Tag nm cl at_ cs)) ->
  forall n, P n.
Proof.
  intros Hs Hk Ht. fix IH 1.
  intros [s|k s|nm cl at_ cs]; [apply Hs|apply Hk|].
  apply Ht. induction cs as [|c cs IHcs]; constructor; [apply IH|exact IHcs].
Qed.

Lemma descendants_Tag (nm : string) (cl : list string)
    (at_ : gmap string string) (cs : list node) :
  bs4.descendants (Tag nm cl at_ cs)
  = flat_map (fun c => c :: bs4.descendants c) cs.
Proof.
  simpl. induction cs as [|c cs IH]; [reflexivity|].
  simpl. rewrite IH. reflexivity.
Qed.

(** ** [get_abstract] *)

Lemma plain_strings_app (l1 l2 : list node) :
  plain_strings (l1 ++ l2) = plain_strings l1 ++ plain_strings l2.
Proof.
  induction l1 as [|[s|k s|nm cl at_ cs] l1 IH]; simpl; congruence.
Qed.

Lemma concat_strings_app (l1 l2 : list string) :
  concat_strings (l1 ++ l2) = concat_strings l1 +:+ concat_strings l2.
Proof.
  induction l1 as [|s l1 IH]; simpl; [reflexivity|].
  rewrite IH, append_assoc. reflexivity.
Qed.

(** The text of a node is made of the plain strings at and below it, in
    document order. *)
Lemma text_gathers_plain_strings (n : node) :
  bs4.text n = concat_strings (plain_strings (n :: bs4.descendants n)).
Proof.
  induction n as [s|k s|nm cl at_ cs IH] using node_nested_ind.
  - simpl. rewrite append_nil_r. reflexivity.
  - reflexivity.
  - rewrite descendants_Tag.
    change (plain_strings (Tag nm cl at_ cs
                           :: flat_map (fun c => c :: bs4.descendants c) cs))
      with (plain_strings (flat_map (fun c => c :: bs4.descendants c) cs)).
    simpl bs4.text.
    induction IH as [|c cs Hc _ IHcs]; [reflexivity|].
    cbn [flat_map]. rewrite plain_strings_app, concat_strings_app.
    rewrite <- Hc, <- IHcs. reflexivity.
Qed.

Lemma text_of_element (d : node) (nm : string) :
  bs4.name d = Some nm ->
  bs4.text d = concat_strings (plain_strings (bs4.descendants d)).
Proof.
  intros Hd. rewrite text_gathers_plain_strings.
  destruct d; [discriminate..|reflexivity].
Qed.

Lemma select_is_element (tag mark : string) (item d : node) :
  In d (bs4.select tag mark item) -> bs4.name d = Some tag.
Proof.
  unfold bs4.select. rewrite List.filter_In. unfold bs4.css_class_contains.
  intros [_ [H _]%andb_true_iff]. apply has_name_spec, H.
Qed.

Lemma get_abstract_returns (item : node) (a : string) :
  get_abstract item = OK a <->
  exists d ds, bs4.select "div" "paper-abstract" item = d :: ds
               /\ trimmed (concat_strings (plain_strings (bs4.descendants d))) a.
Proof.
  unfold get_abstract.
  destruct (bs4.select "div" "paper-abstract" item) as [|d ds] eqn:Hsel;
    simpl; split.
  - discriminate.
  - intros (d & ds & [=] & _).
  - intros [= <-]. exists d, ds. split; [reflexivity|].
    rewrite <- (text_of_element d "div"); [apply strip_trimmed|].
    apply (select_is_element "div" "paper-abstract" item).
    rewrite Hsel. left. reflexivity.
  - intros (d' & ds' & [= <- <-] & Ht).
    rewrite <- (text_of_element d "div") in Ht.
    + apply trimmed_strip in Ht as ->. reflexivity.
    + apply (select_is_element "div" "paper-abstract" item).
      rewrite Hsel. left. reflexivity.
Qed.

Lemma get_abstract_raises (item : node) (e : exn) :
  get_abstract item = Raise e ->
  e = IndexError /\ bs4.select "div" "paper-abstract" item = [].
Proof.
  unfold get_abstract.
  destruct (bs4.select "div" "paper-abstract" item) as [|d ds]; simpl.
  - intros [= <-]. auto.
  - discriminate.
Qed.

(** X1: [get_abstract] returns [a] exactly when some [div] below the node
    has the marker in its class and [a] is the text of the first such
    [div] without the whitespace at its two ends, that text being the
    plain strings below the [div] in document order, those of nested
    elements included and those of comments, scripts, styles and the
    like left out; it raises only [IndexError], and only when no [div]
    has the marker. *)
Theorem get_abstract_trimmed_text (item : node) :
  (forall a, get_abstract item = OK a <->
     exists d ds, bs4.select "div" "paper-abstract" item = d :: ds
       /\ trimmed (concat_strings (plain_strings (bs4.descendants d))) a)
  /\ (forall e, get_abstract item = Raise e ->
        e = IndexError /\ bs4.select "div" "paper-abstract" item = []).
Proof.
  split; [apply get_abstract_returns|apply get_abstract_raises].
Qed.

Lemma get_abstract_trimmed_text_witness :
  get_abstract nested_abstract_item = OK "On maps.".
Proof.
  apply (proj1 (get_abstract_trimmed_text nested_abstract_item)).
  eexists _, _. split; [reflexivity|].
  exists "  ", " ". repeat split; try reflexivity; intros c [= <-]; reflexivity.
Defined.

(** ** The comma lists *)

Lemma has_char_app (a : ascii) (s t : string) :
  has_char a (s +:+ t) = has_char a s || has_char a t.
Proof.
  induction s as [|c s IH]; simpl; [reflexivity|].
  rewrite IH. apply orb_assoc.
Qed.

Lemma strip_keeps_no_char (a : ascii) (p : string) :
  has_char a p = false -> has_char a (str.strip p) = false.
Proof.
  destruct (strip_trimmed p) as (l & r & Hp & _). intros H.
  rewrite Hp, !has_char_app in H.
  apply orb_false_iff in H as [_ H]. apply orb_false_iff in H as [H _].
  exact H.
Qed.

Lemma extract_comma_list_shape (mark : string) (item : node)
    (l : list string) :
  extract_comma_list mark item = OK l ->
  l <> []
  /\ Forall (fun t => has_char "," t = false
                      /\ not_space_at (first_char t)
                      /\ not_space_at (last_char t)) l.
Proof.
  unfold extract_comma_list.
  destruct (bs4.select "div" mark item) as [|d ds]; [discriminate|].
  destruct (bs4.find field_content_span d) as [sp|]; [|discriminate].
  intros [= <-]. split.
  - pose proof (split_not_nil "," (bs4.text sp)) as Hnil.
    destruct (str.split "," (bs4.text sp)); [congruence|discriminate].
  - pose proof (split_no_sep "," (bs4.text sp)) as Hall.
    induction Hall as [|p ps Hp _ IH]; simpl; constructor; [|exact IH].
    split; [apply strip_keeps_no_char, Hp|].
    destruct (strip_trimmed p) as (l & r & _ & _ & _ & Hf & Hl). auto.
Qed.

(** X2: a list [get_author_list] or [get_topics_list] returns is never
    empty (an empty text gives one empty entry), and none of its entries
    holds a comma or has whitespace at either end. *)
Theorem comma_lists_shape (item : node) (l : list string) :
  get_author_list item = OK l \/ get_topics_list item = OK l ->
  l <> []
  /\ Forall (fun t => has_char "," t = false
                      /\ not_space_at (first_char t)
                      /\ not_space_at (last_char t)) l.
Proof.
  rewrite get_author_list_unfold, get_topics_list_unfold.
  intros [H|H]; eapply extract_comma_list_shape; eauto.
Qed.

Lemma comma_lists_shape_witness :
  [""] <> []
  /\ Forall (fun t => has_char "," t = false
                      /\ not_space_at (first_char t)
                      /\ not_space_at (last_char t)) [""].
Proof.
  apply (comma_lists_shape (listing "t" "/h" "  " "d" "a" "T") [""]).
  left. vm_compute. reflexivity.
Defined.

(** ** [convert_raw_paper_to_dict] *)

Lemma convert_after_heading (item h3 a : node) (href : string) :
  bs4.find (bs4.has_name "h3") item = Some h3 ->
  bs4.find (bs4.has_name "a") h3 = Some a ->
  bs4.get_attr a "href" = Some href ->
  convert_raw_paper_to_dict item
  = bind (get_author_list item) (fun authors_v =>
    bind (get_date item) (fun date_v =>
    bind (get_abstract item) (fun abstract_v =>
    bind (get_topics_list item) (fun topics_v =>
    OK (mkpaper (bs4.text h3) ("https://www.nla.gov.au" +:+ href)
          authors_v date_v abstract_v topics_v))))).
Proof.
  intros Hh3 Ha Hhref. unfold convert_raw_paper_to_dict.
  rewrite Hh3. cbn [attr_of bind]. unfold getitem. rewrite Ha, Hhref.
  reflexivity.
Qed.

(** X3: a record is built exactly when the node has an [h3], the [h3] a
    link with an [href], and the four extractors all return; its title is
    the text of the [h3] as it stands (not trimmed), its url the origin
    followed by the [href], and its four other fields are what the
    extractors return. *)
Theorem record_is_built_from_extractors (item : node) (p : paper) :
  convert_raw_paper_to_dict item = OK p <->
  exists h3 a href,
    bs4.find (bs4.has_name "h3") item = Some h3
    /\ bs4.find (bs4.has_name "a") h3 = Some a
    /\ bs4.get_attr a "href" = Some href
    /\ title p = bs4.text h3
    /\ url p = "https://www.nla.gov.au" +:+ href
    /\ get_author_list item = OK (authors p)
    /\ get_date item = OK (date p)
    /\ get_abstract item = OK (abstract p)
    /\ get_topics_list item = OK (topics p).
Proof.
  split.
  - intros H. unfold convert_raw_paper_to_dict in H.
    apply bind_OK in H as (h3 & Hh3%attr_of_OK & H).
    apply bind_OK in H as (h3' & Hh3'%attr_of_OK & H).
    assert (h3' = h3) as -> by congruence.
    apply bind_OK in H as (href & Hhref & H).
    apply bind_OK in H as (au & Hau & H). apply bind_OK in H as (dt & Hdt & H).
    apply bind_OK in H as (ab & Hab & H). apply bind_OK in H as (tp & Htp & H).
    injection H as <-. unfold getitem in Hhref.
    destruct (bs4.find (bs4.has_name "a") h3) as [a|] eqn:Ha; [|discriminate].
    destruct (bs4.get_attr a "href") as [v|] eqn:Hv; [|discriminate].
    injection Hhref as ->. exists h3, a, href. cbn. auto 10.
  - intros (h3 & a & href & Hh3 & Ha & Hhref & Ht & Hu & Hau & Hdt & Hab & Htp).
    rewrite (convert_after_heading item h3 a href Hh3 Ha Hhref).
    rewrite Hau, Hdt, Hab, Htp. cbn [bind]. destruct p; cbn in *. congruence.
Qed.

Lemma record_is_built_from_extractors_witness :
  convert_raw_paper_to_dict
    (listing "  Padded title " "/p" "Abe" "1 March 2001" " a " "T")
  = OK (mkpaper "  Padded title " "https://www.nla.gov.au/p" ["Abe"]
          "2001-03-01" "a" ["T"]).
Proof.
  apply (proj2 (record_is_built_from_extractors _ _)).
  eexists _, _, _. repeat split; vm_compute; reflexivity.
Defined.

Lemma convert_no_h3 (item : node) :
  bs4.find (bs4.has_name "h3") item = None ->
  convert_raw_paper_to_dict item = Raise (AttributeError "text").
Proof. unfold convert_raw_paper_to_dict. intros ->. reflexivity. Qed.

Lemma convert_no_link (item h3 : node) :
  bs4.find (bs4.has_name "h3") item = Some h3 ->
  bs4.find (bs4.has_name "a") h3 = None ->
  convert_raw_paper_to_dict item = Raise TypeError.
Proof.
  unfold convert_raw_paper_to_dict, getitem. intros -> Ha.
  cbn [attr_of bind]. rewrite Ha. reflexivity.
Qed.

Lemma convert_no_href (item h3 a : node) :
  bs4.find (bs4.has_name "h3") item = Some h3 ->
  bs4.find (bs4.has_name "a") h3 = Some a ->
  bs4.get_attr a "href" = None ->
  convert_raw_paper_to_dict item = Raise (KeyError "href").
Proof.
  unfold convert_raw_paper_to_dict, getitem. intros -> Ha Hhref.
  cbn [attr_of bind]. rewrite Ha, Hhref. reflexivity.
Qed.

(** X4: the heading is read before any field.  A node with no [h3]
    raises the [AttributeError] of [None.text]; an [h3] with no link
    below it raises [TypeError]; a link with no [href] raises
    [KeyError] on [href]; and this whatever the four fields hold. *)
Theorem heading_errors_come_first (item : node) :
  (bs4.find (bs4.has_name "h3") item = None ->
   convert_raw_paper_to_dict item = Raise (AttributeError "text"))
  /\ (forall h3,
        bs4.find (bs4.has_name "h3") item = Some h3 ->
        bs4.find (bs4.has_name "a") h3 = None ->
        convert_raw_paper_to_dict item = Raise TypeError)
  /\ (forall h3 a,
        bs4.find (bs4.has_name "h3") item = Some h3 ->
        bs4.find (bs4.has_name "a") h3 = Some a ->
        bs4.get_attr a "href" = None ->
        convert_raw_paper_to_dict item = Raise (KeyError "href")).
Proof.
  split; [apply convert_no_h3|].
  split; [apply convert_no_link|apply convert_no_href].
Qed.

Lemma heading_errors_come_first_witness :
  convert_raw_paper_to_dict headless_item = Raise (AttributeError "text")
  /\ convert_raw_paper_to_dict linkless_item = Raise TypeError
  /\ convert_raw_paper_to_dict hrefless_item = Raise (KeyError "href").
Proof.
  split; [|split].
  - apply (proj1 (heading_errors_come_first headless_item)). reflexivity.
  - apply (proj1 (proj2 (heading_errors_come_first linkless_item))
             (Tag "h3" [] ∅ [NavigableString "No link"])); reflexivity.
  - apply (proj2 (proj2 (heading_errors_come_first hrefless_item))
             (Tag "h3" [] ∅ [Tag "a" [] ∅ [NavigableString "No href"]])
             (Tag "a" [] ∅ [NavigableString "No href"])); reflexivity.
Defined.

(** X5: with the heading and its link in place, the exception of the
    conversion is that of the first extractor to raise in the order
    authors, date, abstract, topics: a later field is not looked at. *)
Theorem first_failing_field_decides (item h3 a : node) (href : string)
    (e : exn) :
  bs4.find (bs4.has_name "h3") item = Some h3 ->
  bs4.find (bs4.has_name "a") h3 = Some a ->
  bs4.get_attr a "href" = Some href ->
  (get_author_list item = Raise e
   \/ (is_ok (get_author_list item) = true /\ get_date item = Raise e)
   \/ (is_ok (get_author_list item) = true /\ is_ok (get_date item) = true
       /\ get_abstract item = Raise e)
   \/ (is_ok (get_author_list item) = true /\ is_ok (get_date item) = true
       /\ is_ok (get_abstract item) = true /\ get_topics_list item = Raise e))
  <-> convert_raw_paper_to_dict item = Raise e.
Proof.
  intros Hh3 Ha Hhref.
  rewrite (convert_after_heading item h3 a href Hh3 Ha Hhref).
  destruct (get_author_list item) as [au|e1]; cbn [bind is_ok].
  2:{ split.
      - intros [[= ->]|[[H _]|[[H _]|[H _]]]]; [reflexivity|discriminate..].
      - intros [= ->]. left. reflexivity. }
  destruct (get_date item) as [dt|e2]; cbn [bind is_ok].
  2:{ split.
      - intros [H|[[_ [= ->]]|[(_ & H & _)|(_ & H & _)]]];
          [discriminate|reflexivity|discriminate..].
      - intros [= ->]. right. left. split; reflexivity. }
  destruct (get_abstract item) as [ab|e3]; cbn [bind is_ok].
  2:{ split.
      - intros [H|[[_ H]|[(_ & _ & [= ->])|(_ & _ & H & _)]]];
          [discriminate|discriminate|reflexivity|discriminate].
      - intros [= ->]. right. right. left. repeat split; reflexivity. }
  destruct (get_topics_list item) as [tp|e4]; cbn [bind is_ok].
  - split; [|discriminate].
    intros [H|[[_ H]|[(_ & _ & H)|(_ & _ & _ & H)]]]; discriminate.
  - split.
    + intros [H|[[_ H]|[(_ & _ & H)|(_ & _ & _ & [= ->])]]];
        [discriminate..|reflexivity].
    + intros [= ->]. right. right. right. repeat split; reflexivity.
Qed.

Lemma first_failing_field_decides_witness :
  convert_raw_paper_to_dict bad_date_no_topics = Raise (ValueError NoMatch).
Proof.
  apply (proj1 (first_failing_field_decides bad_date_no_topics
                  (heading "T" "/t")
                  (Tag "a" [] {[ "href" := "/t" ]} [NavigableString "T"])
                  "/t" (ValueError NoMatch) eq_refl eq_refl eq_refl)).
  right. left. split; vm_compute; reflexivity.
Defined.

Lemma extract_comma_list_raises (mark : string) (item : node) (e : exn) :
  extract_comma_list mark item = Raise e ->
  e = IndexError \/ e = AttributeError "text".
Proof.
  unfold extract_comma_list.
  destruct (bs4.select "div" mark item) as [|d ds]; [intros [= <-]; auto|].
  destruct (bs4.find field_content_span d); [discriminate|intros [= <-]; auto].
Qed.

Lemma get_date_raises (item : node) (e : exn) :
  get_date item = Raise e ->
  e = IndexError \/ e = AttributeError "text" \/ exists why, e = ValueError why.
Proof.
  unfold get_date.
  destruct (bs4.select "div" "paper-pubdate" item) as [|d ds];
    [intros [= <-]; auto|].
  cbn [index0 bind].
  destruct (bs4.find field_content_span d) as [sp|]; [|intros [= <-]; auto].
  cbn [attr_of bind].
  destruct (datetime.strptime_dBY _) as [dt|e'] eqn:Hparse; [discriminate|].
  intros [= <-]. right. right. eapply strptime_raises_ValueError, Hparse.
Qed.

Lemma conversion_kinds_and_date (item : node) (e : exn) :
  convert_raw_paper_to_dict item = Raise e ->
  (e = AttributeError "text" \/ e = TypeError \/ e = KeyError "href"
   \/ e = IndexError \/ exists why, e = ValueError why)
  /\ (forall why, e = ValueError why -> get_date item = Raise e).
Proof.
  intros H.
  destruct (bs4.find (bs4.has_name "h3") item) as [h3|] eqn:Hh3.
  2:{ rewrite (convert_no_h3 item Hh3) in H.
      injection H as <-. split; [auto|discriminate]. }
  destruct (bs4.find (bs4.has_name "a") h3) as [a|] eqn:Ha.
  2:{ rewrite (convert_no_link item h3 Hh3 Ha) in H.
      injection H as <-. split; [auto|discriminate]. }
  destruct (bs4.get_attr a "href") as [href|] eqn:Hhref.
  2:{ rewrite (convert_no_href item h3 a Hh3 Ha Hhref) in H.
      injection H as <-. split; [auto|discriminate]. }
  rewrite (convert_after_heading item h3 a href Hh3 Ha Hhref) in H.
  destruct (get_author_list item) as [au|e1] eqn:Hau; cbn [bind] in H.
  2:{ injection H as <-. rewrite get_author_list_unfold in Hau.
      destruct (extract_comma_list_raises _ _ _ Hau) as [-> | ->];
        (split; [auto|discriminate]). }
  destruct (get_date item) as [dt|e2] eqn:Hdt; cbn [bind] in H.
  2:{ injection H as <-.
      destruct (get_date_raises _ _ Hdt) as [-> | [-> | [why ->]]];
        (split; [eauto 6|auto]). }
  destruct (get_abstract item) as [ab|e3] eqn:Hab; cbn [bind] in H.
  2:{ injection H as <-.
      destruct (get_abstract_raises item _ Hab) as [-> _].
      split; [auto|discriminate]. }
  destruct (get_topics_list item) as [tp|e4] eqn:Htp; cbn [bind] in H;
    [discriminate|].
  injection H as <-. rewrite get_topics_list_unfold in Htp.
  destruct (extract_comma_list_raises _ _ _ Htp) as [-> | ->];
    (split; [auto|discriminate]).
Qed.

Lemma conversion_kinds (item : node) (e : exn) :
  convert_raw_paper_to_dict item = Raise e ->
  e = AttributeError "text" \/ e = TypeError \/ e = KeyError "href"
  \/ e = IndexError \/ exists why, e = ValueError why.
Proof. intros H. apply (conversion_kinds_and_date item e H). Qed.

(** X6: the exceptions one node can raise are five: [AttributeError] on
    [text], [TypeError], [KeyError] on [href], [IndexError], and the
    [ValueError] of the date parse; a [ValueError] is raised only by
    [get_date]. *)
Theorem conversion_exceptions (item : node) (e : exn) :
  convert_raw_paper_to_dict item = Raise e ->
  (e = AttributeError "text" \/ e = TypeError \/ e = KeyError "href"
   \/ e = IndexError \/ exists why, e = ValueError why)
  /\ (forall why, e = ValueError why -> get_date item = Raise e).
Proof. apply conversion_kinds_and_date. Qed.

Lemma conversion_exceptions_witness :
  (ValueError NoMatch = AttributeError "text" \/ ValueError NoMatch = TypeError
   \/ ValueError NoMatch = KeyError "href" \/ ValueError NoMatch = IndexError
   \/ exists why, ValueError NoMatch = ValueError why)
  /\ (forall why, ValueError NoMatch = ValueError why ->
        get_date bad_date_no_topics = Raise (ValueError NoMatch)).
Proof.
  apply (conversion_exceptions bad_date_no_topics (ValueError NoMatch)).
  vm_compute. reflexivity.
Defined.

(** ** [scrape] as a whole *)

Lemma for_each_Raise (A B : Type) (f : A -> result B) (l : list A) (e : exn) :
  for_each f l = Raise e ->
  exists i x, l !! i = Some x /\ f x = Raise e
    /\ forall j x', (j < i)%nat -> l !! j = Some x' -> is_ok (f x') = true.
Proof.
  induction l as [|x0 l IH]; simpl; [discriminate|].
  destruct (f x0) as [y|e0] eqn:Hx0; simpl.
  - destruct (for_each f l) as [ys|e1]; simpl; [discriminate|].
    intros [= <-]. destruct (IH eq_refl) as (i & x & Hi & Hx & Hbefore).
    exists (S i), x. split; [exact Hi|]. split; [exact Hx|].
    intros [|j] x' Hj Hl; simpl in Hl.
    + injection Hl as <-. rewrite Hx0. reflexivity.
    + apply (Hbefore j x'); [lia|exact Hl].
  - intros [= <-]. exists 0%nat, x0. split; [reflexivity|].
    split; [exact Hx0|]. intros j x' Hj. lia.
Qed.

(** X7: on a fetched page, [scrape] returns [ps] exactly when the
    container is found and every [li] below it converts, [ps] being the
    conversions in the order of the [li]. *)
Theorem scrape_returns_iff_all_convert
    (collect_soup : string -> result node) (u : string) (page : node)
    (ps : list paper) :
  collect_soup u = OK page ->
  scrape collect_soup u = OK ps <->
  exists container,
    bs4.find (bs4.class_matches "search-results") page = Some container
    /\ Forall2 (fun n p => convert_raw_paper_to_dict n = OK p)
               (bs4.find_all (bs4.has_name "li") container) ps.
Proof.
  intros Hpage. unfold scrape. rewrite Hpage. cbn [bind]. split.
  - intros (nodes & Hx & Hloop)%bind_OK.
    apply extract_raw_search_results_OK in Hx as (c & Hc & ->).
    exists c. split; [exact Hc|]. apply for_each_OK, Hloop.
  - intros (c & Hc & Hall).
    assert (extract_raw_search_results page
            = OK (bs4.find_all (bs4.has_name "li") c)) as ->.
    { apply extract_raw_search_results_OK. eauto. }
    cbn [bind]. apply for_each_Forall2, Hall.
Qed.

Lemma scrape_returns_iff_all_convert_witness :
  scrape (fun _ => OK (page_of two_listings)) "u"
  = OK [mkpaper "B paper" "https://www.nla.gov.au/b" ["Zed"] "2001-03-02"
          "b" ["T"];
        mkpaper "A paper" "https://www.nla.gov.au/a" ["Abe"] "2001-03-01"
          "a" ["T"]].
Proof.
  apply (proj2 (scrape_returns_iff_all_convert
                  (fun _ => OK (page_of two_listings)) "u"
                  (page_of two_listings) _ eq_refl)).
  eexists. split; [reflexivity|].
  repeat constructor; vm_compute; reflexivity.
Defined.

(** X8: an exception of [scrape] has one of three sources: the fetcher
    raised it; or the page has no container and it is the
    [AttributeError] of [None.find_all]; or it is the exception of the
    first [li], in document order, whose conversion raises.  In the last
    two cases it is never the fetcher's [RequestException]. *)
Theorem scrape_exception_sources
    (collect_soup : string -> result node) (u : string) (e : exn) :
  scrape collect_soup u = Raise e ->
  collect_soup u = Raise e
  \/ (exists page,
        collect_soup u = OK page
        /\ bs4.find (bs4.class_matches "search-results") page = None
        /\ e = AttributeError "find_all")
  \/ (exists page container i n,
        collect_soup u = OK page
        /\ bs4.find (bs4.class_matches "search-results") page = Some container
        /\ bs4.find_all (bs4.has_name "li") container !! i = Some n
        /\ convert_raw_paper_to_dict n = Raise e
        /\ e <> RequestException
        /\ forall j n', (j < i)%nat ->
             bs4.find_all (bs4.has_name "li") container !! j = Some n' ->
             is_ok (convert_raw_paper_to_dict n') = true).
Proof.
  unfold scrape, extract_raw_search_results.
  destruct (collect_soup u) as [page|e0]; cbn [bind]; [|intros [= <-]; auto].
  destruct (bs4.find (bs4.class_matches "search-results") page) as [c|] eqn:Hc;
    cbn [attr_of bind].
  - intros H. apply for_each_Raise in H as (i & n & Hi & Hn & Hbefore).
    right. right. exists page, c, i, n. repeat split; auto.
    intros ->. apply conversion_kinds in Hn.
    destruct Hn as [Hn|[Hn|[Hn|[Hn|[why Hn]]]]]; discriminate Hn.
  - intros [= <-]. right. left. exists page. auto.
Qed.

Lemma scrape_exception_sources_witness :
  (fun _ : string => OK (page_of good_then_bad)) "u"
    = Raise (ValueError NoMatch)
  \/ (exists page,
        OK (page_of good_then_bad) = OK page
        /\ bs4.find (bs4.class_matches "search-results") page = None
        /\ ValueError NoMatch = AttributeError "find_all")
  \/ (exists page container i n,
        OK (page_of good_then_bad) = OK page
        /\ bs4.find (bs4.class_matches "search-results") page = Some container
        /\ bs4.find_all (bs4.has_name "li") container !! i = Some n
        /\ convert_raw_paper_to_dict n = Raise (ValueError NoMatch)
        /\ ValueError NoMatch <> RequestException
        /\ forall j n', (j < i)%nat ->
             bs4.find_all (bs4.has_name "li") container !! j = Some n' ->
             is_ok (convert_raw_paper_to_dict n') = true).
Proof.
  apply (scrape_exception_sources (fun _ => OK (page_of good_then_bad)) "u"
           (ValueError NoMatch)).
  vm_compute. reflexivity.
Defined.

(** ** [extract_raw_search_results] *)

(** What lies below a descendant lies below the node. *)
Lemma descendants_trans (n c x : node) :
  In c (bs4.descendants n) -> In x (bs4.descendants c) ->
  In x (bs4.descendants n).
Proof.
  revert c x. induction n as [s|k s|nm cl at_ cs IH] using node_nested_ind;
    intros c x Hc Hx; [destruct Hc|destruct Hc|].
  rewrite descendants_Tag in *.
  apply List.in_flat_map in Hc as (k & Hk & Hck).
  apply List.in_flat_map. exists k. split; [exact Hk|].
  destruct Hck as [<- | Hck]; [right; exact Hx|].
  right. rewrite List.Forall_forall in IH. eapply IH; eauto.
Qed.

(** X9: every node [extract_raw_search_results] returns is an [li]
    element of the page, below the first element that has the class
    [search-results]; and the search goes all the way down: an [li] that
    lies inside a returned [li] is returned as a node of its own. *)
Theorem results_are_all_li_below_container (soup : node)
    (nodes : list node) :
  extract_raw_search_results soup = OK nodes ->
  exists container,
    bs4.find (bs4.class_matches "search-results") soup = Some container
    /\ (forall n, In n nodes <->
          In n (bs4.descendants container) /\ bs4.name n = Some "li")
    /\ (forall n, In n nodes -> In n (bs4.descendants soup))
    /\ (forall n x, In n nodes -> In x (bs4.descendants n) ->
          bs4.name x = Some "li" -> In x nodes).
Proof.
  intros (c & Hc & ->)%extract_raw_search_results_OK.
  exists c. split; [exact Hc|].
  assert (forall n, In n (bs4.find_all (bs4.has_name "li") c) <->
            In n (bs4.descendants c) /\ bs4.name n = Some "li") as Hin.
  { intros n. unfold bs4.find_all.
    rewrite List.filter_In, has_name_spec. reflexivity. }
  split; [exact Hin|]. split.
  - intros n [Hn _]%Hin. apply head_filter_Some in Hc as [Hc _].
    eapply descendants_trans; eauto.
  - intros n x [Hn _]%Hin Hx Hli. apply Hin. split; [|exact Hli].
    eapply descendants_trans; eauto.
Qed.

Lemma results_are_all_li_below_container_witness :
  extract_raw_search_results nested_list_page = OK [outer_li; inner_li]
  /\ exists container,
    bs4.find (bs4.class_matches "search-results") nested_list_page
      = Some container
    /\ (forall n, In n [outer_li; inner_li] <->
          In n (bs4.descendants container) /\ bs4.name n = Some "li")
    /\ (forall n, In n [outer_li; inner_li] ->
          In n (bs4.descendants nested_list_page))
    /\ (forall n x, In n [outer_li; inner_li] -> In x (bs4.descendants n) ->
          bs4.name x = Some "li" -> In x [outer_li; inner_li]).
Proof.
  assert (extract_raw_search_results nested_list_page
          = OK [outer_li; inner_li]) as H by (vm_compute; reflexivity).
  split; [exact H|].
  exact (results_are_all_li_below_container nested_list_page _ H).
Defined.

(** ** The output path *)

Lemma startswith_app (s t p : string) :
  str.startswith s p = true -> str.startswith (s +:+ t) p = true.
Proof.
  intros (post & ->)%startswith_spec. apply startswith_spec.
  exists (post +:+ t). apply append_assoc.
Qed.

Lemma normpath_keeps_root (path : string) :
  str.startswith path "/" = true ->
  str.startswith (os_path.normpath path) "/" = true.
Proof.
  intros Hroot. unfold os_path.normpath.
  destruct path as [|c path]; [discriminate|].
  change (String.eqb (String c path) "") with false. cbv iota.
  rewrite Hroot.
  destruct (str.startswith (String c path) "//"
            && negb (str.startswith (String c path) "///")); reflexivity.
Qed.

Lemma abspath_is_absolute (cwd path : string) :
  str.startswith cwd "/" = true ->
  str.startswith (os_path.abspath cwd path) "/" = true.
Proof.
  intros Hcwd. unfold os_path.abspath. apply normpath_keeps_root.
  destruct (str.startswith path "/") eqn:Hpath; [exact Hpath|].
  unfold os_path.join. rewrite Hpath.
  destruct (_ || _); apply startswith_app, Hcwd.
Qed.

(** X11: when the working directory is an absolute path, the output path
    [parse_args] returns is absolute, whatever was given on the command
    line, and so is the path [main] opens. *)
Theorem parsed_outpath_is_absolute (cwd : string)
    (url_opt outpath_opt : option string) (silent_flag : bool) (now : clock) :
  str.startswith cwd "/" = true ->
  str.startswith (arg_outpath (parse_args cwd url_opt outpath_opt silent_flag))
    "/" = true
  /\ str.startswith
       (main_outpath now (parse_args cwd url_opt outpath_opt silent_flag))
       "/" = true.
Proof.
  intros Hcwd.
  assert (str.startswith
            (arg_outpath (parse_args cwd url_opt outpath_opt silent_flag))
            "/" = true) as Habs by (apply abspath_is_absolute, Hcwd).
  split; [exact Habs|].
  unfold main_outpath, add_filename_default.
  destruct (str.endswith _ ".json"); cbv [negb]; [exact Habs|].
  unfold os_path.join.
  destruct (str.startswith (strftime_stamp now +:+ ".json") "/") eqn:Hname;
    [exact Hname|].
  destruct (_ || _); [apply startswith_app, Habs|].
  apply startswith_app, Habs.
Qed.

Lemma parsed_outpath_is_absolute_witness :
  str.startswith
    (arg_outpath (parse_args "/home/u" None (Some "../x/out") true)) "/" = true
  /\ str.startswith
       (main_outpath noon (parse_args "/home/u" None (Some "../x/out") true))
       "/" = true.
Proof.
  apply (parsed_outpath_is_absolute "/home/u" None (Some "../x/out") true noon).
  reflexivity.
Defined.

Lemma stamp_is_relative (now : clock) :
  0 <= c_year now <= 9999 ->
  str.startswith (strftime_stamp now +:+ ".json") "/" = false.
Proof.
  intros Hy. destruct (year_digits _ Hy) as (H1 & _).
  change (Ascii.eqb "/" (datetime.digit_char (c_year now / 1000)) && true
          = false).
  generalize dependent (c_year now / 1000). clear. intros n Hn.
  range_cases Hn 0 10; reflexivity.
Qed.

(** X12: for a clock whose year has four digits, when the path does not
    end in [.json] the file goes inside it: the result is the path, a
    [/] unless the path is empty or ends with one, and the name
    [<stamp>.json]; the generated name never takes the place of the
    path. *)
Theorem default_file_goes_inside (now : clock) (p : string) :
  0 <= c_year now <= 9999 ->
  str.endswith p ".json" = false ->
  add_filename_default now p
  = p +:+ (if String.eqb p "" || str.endswith p "/" then "" else "/")
      +:+ strftime_stamp now +:+ ".json"
  /\ str.startswith (add_filename_default now p) p = true.
Proof.
  intros Hy Hp.
  assert (add_filename_default now p
          = p +:+ (if String.eqb p "" || str.endswith p "/" then "" else "/")
              +:+ strftime_stamp now +:+ ".json") as Heq.
  { unfold add_filename_default, os_path.join.
    rewrite Hp, (stamp_is_relative now Hy). cbv [negb].
    destruct (_ || _); reflexivity. }
  split; [exact Heq|]. rewrite Heq. apply startswith_spec. eauto.
Qed.

Lemma default_file_goes_inside_witness :
  add_filename_default noon "/data/"
    = "/data/" +:+ "" +:+ strftime_stamp noon +:+ ".json"
  /\ str.startswith (add_filename_default noon "/data/") "/data/" = true.
Proof.
  apply (default_file_goes_inside noon "/data/"); [|reflexivity].
  vm_compute. split; discriminate.
Defined.

(** ** The date string *)

Lemma int_pad2 (n : Z) : 0 <= n <= 99 -> datetime.int (datetime.pad2 n) = n.
Proof.
  intros Hn.
  assert (0 <= n / 10 <= 9 /\ 0 <= n mod 10 <= 9
          /\ 10 * (n / 10) + n mod 10 = n) as (H1 & H2 & Hsum)
    by (Z.div_mod_to_equations; lia).
  unfold datetime.int. rewrite strip_no_space_ends.
  - unfold datetime.pad2, datetime.int_digits.
    rewrite (proj2 (digit_char_spec _ H1)), (proj2 (digit_char_spec _ H2)).
    lia.
  - intros c [= <-]. apply digit_not_space, digit_char_spec, H1.
  - intros c [= <-]. apply digit_not_space, digit_char_spec, H2.
Qed.

Lemma valid_ranges (y m d : Z) :
  datetime.valid y m d = true ->
  1 <= y <= 9999 /\ 1 <= m <= 12 /\ 1 <= d <= 31
  /\ d <= datetime.days_in_month y m.
Proof.
  unfold datetime.valid. rewrite !andb_true_iff, !Z.leb_le.
  intros (((((Hy1 & Hy2) & Hm1) & Hm2) & Hd1) & Hd2).
  assert (datetime.days_in_month y m <= 31).
  { unfold datetime.days_in_month.
    destruct (m =? 2); [destruct (datetime.is_leap y); lia|].
    destruct (_ || _); lia. }
  lia.
Qed.

(** X13: a string [get_date] returns has ten characters, hyphens at
    positions 4 and 7, and names a date that exists, from year 1 to year
    9999: the year, the month and the day are read back from the
    positions 0-3, 5-6 and 8-9. *)
Theorem date_string_reads_back (item : node) (iso : string) :
  get_date item = OK iso ->
  String.length iso = 10%nat
  /\ String.get 4 iso = Some "-"%char /\ String.get 7 iso = Some "-"%char
  /\ exists y m d,
       1 <= y <= 9999 /\ 1 <= m <= 12 /\ 1 <= d <= datetime.days_in_month y m
       /\ datetime.int (str.take 4 iso) = y
       /\ datetime.int (str.take 2 (str.drop 5 iso)) = m
       /\ datetime.int (str.drop 8 iso) = d.
Proof.
  unfold get_date. intros H.
  apply bind_OK in H as (dv & _ & H). apply bind_OK in H as (sp & _ & H).
  apply bind_OK in H as (dt & Hdt & [= <-]).
  apply strptime_sound in Hdt as [_ Hvalid]; [|apply strip_first_char].
  destruct dt as [y m d]. cbn in Hvalid.
  apply valid_ranges in Hvalid as (Hy & Hm & Hd & Hdim).
  unfold datetime.isoformat; cbn [datetime.year datetime.month datetime.day].
  repeat split.
  exists y, m, d. repeat split; try lia.
  - change (str.take 4 (datetime.pad4 y +:+ "-" +:+ datetime.pad2 m +:+ "-"
                        +:+ datetime.pad2 d)) with (datetime.pad4 y).
    apply int_year. split; [lia|reflexivity].
  - change (str.take 2 (str.drop 5 (datetime.pad4 y +:+ "-" +:+ datetime.pad2 m
                                    +:+ "-" +:+ datetime.pad2 d)))
      with (datetime.pad2 m).
    apply int_pad2. lia.
  - change (str.drop 8 (datetime.pad4 y +:+ "-" +:+ datetime.pad2 m +:+ "-"
                        +:+ datetime.pad2 d)) with (datetime.pad2 d).
    apply int_pad2. lia.
Qed.

Lemma date_string_reads_back_witness :
  String.length "2001-03-02" = 10%nat
  /\ String.get 4 "2001-03-02" = Some "-"%char
  /\ String.get 7 "2001-03-02" = Some "-"%char
  /\ exists y m d,
       1 <= y <= 9999 /\ 1 <= m <= 12 /\ 1 <= d <= datetime.days_in_month y m
       /\ datetime.int (str.take 4 "2001-03-02") = y
       /\ datetime.int (str.take 2 (str.drop 5 "2001-03-02")) = m
       /\ datetime.int (str.drop 8 "2001-03-02") = d.
Proof.
  apply (date_string_reads_back (dated "2 march 2001") "2001-03-02").
  vm_compute. reflexivity.
Defined.

(** ** The default output directory *)

Lemma split_app_sep (sep : ascii) (x r : string) :
  str.split sep (x +:+ String sep r) = str.split sep x ++ str.split sep r.
Proof.
  induction x as [|c x IH]; simpl.
  - rewrite Ascii.eqb_refl. reflexivity.
  - destruct (Ascii.eqb c sep); [rewrite IH; reflexivity|].
    rewrite IH. pose proof (split_not_nil sep x) as Hnil.
    destruct (str.split sep x); [congruence|reflexivity].
Qed.

Lemma norm_comps_app (i : nat) (l1 l2 acc : list string) :
  os_path.norm_comps i (l1 ++ l2) acc
  = os_path.norm_comps i l2 (os_path.norm_comps i l1 acc).
Proof.
  revert acc; induction l1 as [|c l1 IH]; intros acc; [reflexivity|].
  simpl. destruct (_ || _); [apply IH|].
  destruct (_ || _); apply IH.
Qed.

Lemma endswith_spec (s p : string) :
  str.endswith s p = true <-> exists pre, s = pre +:+ p.
Proof.
  induction s as [|c s IH].
  - change (str.endswith "" p) with (String.eqb "" p || false).
    rewrite orb_false_r, String.eqb_eq. split.
    + intros <-. exists "". reflexivity.
    + intros (pre & H). destruct pre; simpl in H; [exact H|discriminate].
  - change (str.endswith (String c s) p)
      with (String.eqb (String c s) p || str.endswith s p).
    rewrite orb_true_iff, String.eqb_eq, IH. split.
    + intros [<- | (pre & ->)]; [exists ""|exists (String c pre)]; reflexivity.
    + intros (pre & H). destruct pre as [|c' pre]; simpl in H; [auto|].
      injection H as -> ->. eauto.
Qed.

(** The components [./] adds at the end of a path are dropped again. *)
Lemma norm_comps_dot_tail (i : nat) (cwd : string) :
  cwd <> "" ->
  os_path.norm_comps i
    (str.split "/" (if str.endswith cwd "/" then cwd +:+ "./"
                    else cwd +:+ "/" +:+ "./")) []
  = os_path.norm_comps i (str.split "/" cwd) [].
Proof.
  intros Hne. destruct (str.endswith cwd "/") eqn:Hend.
  - apply endswith_spec in Hend as (pre & ->).
    rewrite append_assoc.
    change ("/" +:+ "./") with (String "/" "./").
    change (pre +:+ "/") with (pre +:+ String "/" "").
    rewrite !split_app_sep, !norm_comps_app. reflexivity.
  - change (cwd +:+ "/" +:+ "./") with (cwd +:+ String "/" "./").
    rewrite split_app_sep, norm_comps_app. reflexivity.
Qed.

Lemma slash_cases (c : ascii) :
  c = "/"%char
  \/ (Ascii.eqb c "/" = false /\ Ascii.eqb "/" c = false).
Proof.
  destruct (Ascii.eqb_spec c "/") as [->|Hne]; [left; reflexivity|right].
  split; [reflexivity|]. apply Ascii.eqb_neq. congruence.
Qed.

Lemma initial_slashes_dot_tail (cwd : string) :
  cwd <> "" ->
  let path := if str.endswith cwd "/" then cwd +:+ "./"
              else cwd +:+ "/" +:+ "./" in
  (if str.startswith path "/" then
     if str.startswith path "//" && negb (str.startswith path "///")
     then 2%nat else 1%nat
   else 0%nat)
  = (if str.startswith cwd "/" then
       if str.startswith cwd "//" && negb (str.startswith cwd "///")
       then 2%nat else 1%nat
     else 0%nat).
Proof.
  intros Hne.
  destruct cwd as [|c1 [|c2 [|c3 r]]]; [congruence| | |].
  - destruct (slash_cases c1) as [->|[E1 E1']]; [reflexivity|].
    do 3 (cbn -[Ascii.eqb]; rewrite ?Ascii.eqb_refl, ?E1, ?E1').
    reflexivity.
  - destruct (slash_cases c1) as [->|[E1 E1']];
      destruct (slash_cases c2) as [->|[E2 E2']];
      try reflexivity;
      do 3 (cbn -[Ascii.eqb]; rewrite ?Ascii.eqb_refl, ?E1, ?E1', ?E2, ?E2');
      reflexivity.
  - destruct (str.endswith _ "/"); reflexivity.
Qed.

Lemma abspath_dot (cwd : string) :
  os_path.abspath cwd "./" = os_path.normpath cwd.
Proof.
  unfold os_path.abspath, os_path.join.
  change (str.startswith "./" "/") with false. cbv iota.
  destruct cwd as [|c cwd'] eqn:E; [reflexivity|]. rewrite <- E.
  assert (cwd <> "") as Hne by (subst; discriminate).
  assert (String.eqb cwd "" = false) as -> by (subst; reflexivity).
  cbn [orb].
  pose proof (initial_slashes_dot_tail cwd Hne) as Hslashes.
  pose proof (fun i => norm_comps_dot_tail i cwd Hne) as Hcomps.
  cbv zeta in Hslashes.
  assert ((if str.endswith cwd "/" then cwd +:+ "./" else cwd +:+ "/" +:+ "./")
          <> "") as Hpath.
  { subst cwd. destruct (str.endswith _ "/"); discriminate. }
  revert Hslashes Hcomps Hpath.
  generalize (if str.endswith cwd "/" then cwd +:+ "./"
              else cwd +:+ "/" +:+ "./").
  intros path Hslashes Hcomps Hpath. unfold os_path.normpath.
  assert (String.eqb path "" = false) as -> by (apply String.eqb_neq, Hpath).
  assert (String.eqb cwd "" = false) as -> by (apply String.eqb_neq, Hne).
  cbv zeta. rewrite Hslashes, Hcomps. reflexivity.
Qed.

(** X14: with no [--outpath] on the command line, the output path is the
    working directory in normal form: [abspath] of the default [./] adds
    nothing to it.  A working directory that is already normal is the
    output path as it stands. *)
Theorem default_outpath_is_working_directory (cwd : string)
    (url_opt : option string) (silent_flag : bool) :
  arg_outpath (parse_args cwd url_opt None silent_flag)
  = os_path.normpath cwd
  /\ (os_path.normpath cwd = cwd ->
      arg_outpath (parse_args cwd url_opt None silent_flag) = cwd).
Proof.
  assert (arg_outpath (parse_args cwd url_opt None silent_flag)
          = os_path.normpath cwd) as H by apply abspath_dot.
  split; [exact H|]. intros Hnorm. rewrite H. exact Hnorm.
Qed.

Lemma default_outpath_is_working_directory_witness :
  arg_outpath (parse_args "/home/u/papers" None None false) = "/home/u/papers".
Proof.
  apply (default_outpath_is_working_directory "/home/u/papers" None false).
  reflexivity.
Defined.
